(** * The adaptive pricing engine of pricelabs-auto

    A shallow embedding of [PricingStrategy] (the strategy module bundled in
    [src/index.js]) and of the ledger writer [saveChangesToLog] of the bot's
    main script, followed by the properties established about them.

    Conventions of the embedding.
    - JavaScript numbers are embedded as exact rationals ([Q]); the
      special values NaN and the infinities are outside the model.
      [Math.round] is [floor (x + 1/2)].
    - A calendar date carried by a record ([date: "YYYY-MM-DD"]) is the
      number of the day since the epoch; [new Date(date)] is that day's
      midnight in milliseconds.  The wall clock [new Date()] is an explicit
      argument [now], in milliseconds, and local time is UTC.
    - The run date that the ledger writers put in [lastRun] and in the name
      of the backup file stays the ISO string that the code builds.
    - The mutable [PricingStrategy] object is passed explicitly: every
      method takes the engine state and returns the new one. *)

From Stdlib Require Import ZArith QArith Qround Qabs Qminmax Lqa.
From Stdlib Require Import String Ascii List Sorted.
From stdpp Require Import gmap strings list.

Local Open Scope string_scope.
Local Open Scope Z_scope.

(** ** Numbers *)

Definition Qltb (a b : Q) : bool := negb (Qle_bool b a).
Definition Qgeb (a b : Q) : bool := Qle_bool b a.
Definition Qgtb (a b : Q) : bool := Qltb b a.

(** [Math.round]: the nearest integer, halves going up. *)
Definition Math_round (x : Q) : Q := inject_Z (Qfloor (x + (1 # 2))).

(** ** JavaScript values reaching the occupancy normalizer *)

Inductive JsValue : Type :=
  | JsNull
  | JsUndefined
  | JsNumber (n : Q)
  | JsString (s : string)
  | JsOther.          (* booleans, objects, arrays, ... *)

(** *** The regular expression [/(\d+(\.\d+)?)%?/] *)

Definition isDigit (c : ascii) : bool :=
  let n := nat_of_ascii c in (48 <=? n)%nat && (n <=? 57)%nat.

Definition digitValue (c : ascii) : Z := Z.of_nat (nat_of_ascii c) - 48.

(** The longest run of digits at the head of [s], and what follows it. *)
Fixpoint spanDigits (s : string) : list ascii * string :=
  match s with
  | String c rest =>
      if isDigit c then let '(ds, tl) := spanDigits rest in (c :: ds, tl)
      else ([], s)
  | EmptyString => ([], s)
  end.

(** [match[1]] as its integer digits and its fraction digits (empty when the
    group [(\.\d+)] did not take part).  The match is the leftmost one, so it
    starts at the first digit of the string; both digit runs are greedy. *)
Fixpoint regexNumericToken (s : string) : option (list ascii * list ascii) :=
  match s with
  | EmptyString => None
  | String c rest =>
      if isDigit c then
        let '(ints, tl) := spanDigits s in
        match tl with
        | String "."%char tl' =>
            let '(fracs, _) := spanDigits tl' in Some (ints, fracs)
        | _ => Some (ints, [])
        end
      else regexNumericToken rest
  end.

Definition digitsValue (ds : list ascii) : Z :=
  fold_left (fun acc c => 10 * acc + digitValue c) ds 0.

(** [parseFloat] on a token [ints.fracs]. *)
Definition parseFloatToken (tok : list ascii * list ascii) : Q :=
  let '(ints, fracs) := tok in
  let scale := Z.pow 10 (Z.of_nat (length fracs)) in
  Qmake (digitsValue ints * scale + digitsValue fracs) (Z.to_pos scale).

(** [parseOccupancyRate(rateStr)] *)
Definition parseOccupancyRate (rateStr : JsValue) : Q :=
  match rateStr with
  | JsNull | JsUndefined => 0
  | JsNumber n => if Qgtb n 1 then n / 100 else n
  | JsString s =>
      if String.eqb s "N/A" || String.eqb s "" then 0
      else match regexNumericToken s with
           | None => 0
           | Some tok => parseFloatToken tok / 100
           end
  | JsOther => 0
  end%Q.

(** ** Time *)

Definition dayMs : Z := 86400000.

(** [new Date(date).getTime()] for a record date. *)
Definition dateMs (date : Z) : Z := date * dayMs.

(** [new Date().toISOString().split('T')[0]], as a day number. *)
Definition todayOf (now : Z) : Z := now / dayMs.

(** [new Date().getDay()]: 0 is Sunday; the epoch fell on a Thursday. *)
Definition getDay (now : Z) : Z := (todayOf now + 4) mod 7.

(** [adjustmentDate >= sevenDaysAgo], where
    [sevenDaysAgo.setDate(now.getDate() - 7)]. *)
Definition sinceSevenDaysAgo (now : Z) (date : Z) : bool :=
  now - 7 * dayMs <=? dateMs date.

(** ** Data model *)

Record Occupancy : Type := mkOccupancy {
  occ_7_day : JsValue;       (* currentOccupancy["7_day_occ"] *)
  occ_30_day : JsValue;
  occ_60_day : JsValue
}.

Record PricePair : Type := mkPricePair { before : Q; after : Q }.

(** One entry of the ledger's [changes] and of [currentChanges]. *)
Record ChangeRecord : Type := mkChange {
  ch_url : string;
  ch_date : Z;
  ch_occupancy : option Occupancy;
  ch_minPrice : option PricePair;
  ch_basePrice : option PricePair;
  ch_error : option string
}.

Record OccupancyEntry : Type := mkOccEntry {
  oe_date : Z; sevenDay : Q; thirtyDay : Q; sixtyDay : Q
}.

Record PriceEntry : Type := mkPriceEntry {
  pe_date : Z; pe_minPrice : PricePair; pe_basePrice : PricePair
}.

(** [percentChange] is absent on the records rebuilt from the ledger. *)
Record AdjustmentRecord : Type := mkAdjustment {
  adj_date : Z;
  adj_strategy : string;
  percentChange : option Q;
  minPricePercentChange : Q;
  basePricePercentChange : Q
}.

Record PropertyStats : Type := mkStats {
  st_url : string;
  occupancyHistory : list OccupancyEntry;
  priceHistory : list PriceEntry;
  adjustmentHistory : list AdjustmentRecord;
  lastOscillationDirection : option Q;   (* None: the field is undefined *)
  lastUpdate : option Z
}.

Record Weights : Type := mkWeights { w_sevenDay : Q; w_thirtyDay : Q; w_sixtyDay : Q }.
Record Thresholds : Type := mkThresholds { high : Q; medium : Q; low : Q; critical : Q }.

Record Config : Type := mkConfig {
  cfg_strategy : string;
  occupancyWeights : option Weights;
  occupancyThresholds : option Thresholds;
  increase_percentage : Q;          (* adjustments.increase.percentage *)
  decrease_percentage : Q;          (* adjustments.decrease.percentage *)
  hold_oscillationPercentage : Q;   (* adjustments.hold.oscillationPercentage *)
  logFile : option string
}.

(** The fields of a [PricingStrategy] object that the methods below use. *)
Record Engine : Type := mkEngine {
  config : Config;
  propertyStats : gmap string PropertyStats;
  currentChanges : list ChangeRecord
}.

Definition defaultWeights : Weights := mkWeights (6 # 10) (3 # 10) (1 # 10).
Definition defaultThresholds : Thresholds :=
  mkThresholds (85 # 100) (50 # 100) (40 # 100) (20 # 100).

(** [this.config.occupancyWeights || {...}] and its sibling. *)
Definition weightsOf (c : Config) : Weights := default defaultWeights (occupancyWeights c).
Definition thresholdsOf (c : Config) : Thresholds :=
  default defaultThresholds (occupancyThresholds c).

Definition weightedOccupancy (w : Weights) (o7 o30 o60 : Q) : Q :=
  (o7 * w_sevenDay w + o30 * w_thirtyDay w + o60 * w_sixtyDay w)%Q.

(** ** Strategy classifier *)

(** The counters of the momentum guard of [getPropertyStrategy]. *)
Record Momentum : Type := mkMomentum {
  consecutiveIncreases : nat;
  consecutiveDecreases : nat;
  cumulativeIncrease : Q;
  cumulativeDecrease : Q;
  sevenDayIncrease : Q;
  sevenDayDecrease : Q
}.

Definition momentum0 : Momentum := mkMomentum 0 0 0 0 0 0.

(** The 7-day totals, updated before the chain is inspected. *)
Definition addSevenDayTotals (now : Z) (a : AdjustmentRecord) (m : Momentum) : Momentum :=
  if sinceSevenDaysAgo now (adj_date a) then
    if Qgtb (basePricePercentChange a) 0 then
      mkMomentum (consecutiveIncreases m) (consecutiveDecreases m)
        (cumulativeIncrease m) (cumulativeDecrease m)
        (sevenDayIncrease m + basePricePercentChange a) (sevenDayDecrease m)
    else if Qltb (basePricePercentChange a) 0 then
      mkMomentum (consecutiveIncreases m) (consecutiveDecreases m)
        (cumulativeIncrease m) (cumulativeDecrease m)
        (sevenDayIncrease m) (sevenDayDecrease m + Qabs (basePricePercentChange a))
    else m
  else m.

Definition isIncreaseAdjustment (a : AdjustmentRecord) : bool :=
  String.eqb (adj_strategy a) "increase"
  && (Qgtb (minPricePercentChange a) 0 || Qgtb (basePricePercentChange a) 0).

Definition isDecreaseAdjustment (a : AdjustmentRecord) : bool :=
  String.eqb (adj_strategy a) "decrease"
  && (Qltb (minPricePercentChange a) 0 || Qltb (basePricePercentChange a) 0).

(** The body of [for (let i = recentAdjustments.length - 1; i >= 0; i--)];
    [adjs] lists the records in the order the loop visits them. *)
Fixpoint momentumLoop (now : Z) (adjs : list AdjustmentRecord) (m : Momentum) : Momentum :=
  match adjs with
  | [] => m
  | a :: older =>
      let m1 := addSevenDayTotals now a m in
      if isIncreaseAdjustment a then
        let m2 := mkMomentum (S (consecutiveIncreases m1)) (consecutiveDecreases m1)
                    (cumulativeIncrease m1
                     + Qmax (minPricePercentChange a) (basePricePercentChange a))
                    (cumulativeDecrease m1) (sevenDayIncrease m1) (sevenDayDecrease m1) in
        if (0 <? consecutiveDecreases m2)%nat then m2 else momentumLoop now older m2
      else if isDecreaseAdjustment a then
        let m2 := mkMomentum (consecutiveIncreases m1) (S (consecutiveDecreases m1))
                    (cumulativeIncrease m1)
                    (cumulativeDecrease m1
                     + Qabs (Qmin (minPricePercentChange a) (basePricePercentChange a)))
                    (sevenDayIncrease m1) (sevenDayDecrease m1) in
        if (0 <? consecutiveIncreases m2)%nat then m2 else momentumLoop now older m2
      else m1
  end.

(** [array.slice(-n)] *)
Definition sliceLast {A} (n : nat) (l : list A) : list A := skipn (length l - n) l.

Definition momentumOf (now : Z) (history : list AdjustmentRecord) : Momentum :=
  momentumLoop now (rev (sliceLast 7 history)) momentum0.

Definition forceHoldOf (m : Momentum) : bool :=
  Qgeb (cumulativeIncrease m) 3
  || Qgeb (sevenDayIncrease m) 4
  || (3 <=? consecutiveDecreases m)%nat.

(** *** Trend estimator *)

(** [Array.prototype.sort] is stable; the comparator orders by date, most
    recent first. *)
Fixpoint insertByDateDesc (x : OccupancyEntry) (l : list OccupancyEntry) : list OccupancyEntry :=
  match l with
  | [] => [x]
  | y :: ys => if oe_date y <=? oe_date x then x :: l else y :: insertByDateDesc x ys
  end.

Definition sortByDateDesc (l : list OccupancyEntry) : list OccupancyEntry :=
  fold_right insertByDateDesc [] l.

Definition calculateOccupancyTrend (history : list OccupancyEntry) : Q :=
  match sortByDateDesc history with
  | mostRecent :: previous :: _ => (sevenDay mostRecent - sevenDay previous) * 100
  | _ => 0
  end%Q.

(** *** [getPropertyStrategy(propertyUrl, currentOccupancy)] *)
Definition getPropertyStrategy (now : Z) (propertyUrl : string)
    (currentOccupancy : Occupancy) (e : Engine) : string :=
  let current7DayOcc := parseOccupancyRate (occ_7_day currentOccupancy) in
  let current30DayOcc := parseOccupancyRate (occ_30_day currentOccupancy) in
  let current60DayOcc := parseOccupancyRate (occ_60_day currentOccupancy) in
  let weights := weightsOf (config e) in
  let thresholds := thresholdsOf (config e) in
  let weightedOcc := weightedOccupancy weights current7DayOcc current30DayOcc current60DayOcc in
  let forceHold :=
    match propertyStats e !! propertyUrl with
    | Some stats => forceHoldOf (momentumOf now (adjustmentHistory stats))
    | None => false
    end in
  if forceHold then "hold"
  else if Qgeb current7DayOcc (high thresholds) then "increase"
  else if Qltb weightedOcc (low thresholds) && Qltb current7DayOcc (medium thresholds)
  then "decrease"
  else match propertyStats e !! propertyUrl with
       | Some stats =>
           let occupancyTrend := calculateOccupancyTrend (occupancyHistory stats) in
           if Qgtb occupancyTrend 5 || Qgtb current7DayOcc (7 # 10) then "increase"
           else if Qltb occupancyTrend (-3) || Qltb weightedOcc (45 # 100) then "decrease"
           else "hold"
       | None => cfg_strategy (config e)
       end.

(** ** Adjustment calculator *)

Definition changeToUse (priceType : string) (a : AdjustmentRecord) : Q :=
  if String.eqb priceType "min" then minPricePercentChange a else basePricePercentChange a.

(** The loop [for (const adjustment of stats.adjustmentHistory)] that totals
    the positive changes of the past seven days for [priceType]. *)
Definition addTrailing (now : Z) (priceType : string) (acc : Q) (a : AdjustmentRecord) : Q :=
  if sinceSevenDaysAgo now (adj_date a) && Qgtb (changeToUse priceType a) 0
  then (acc + changeToUse priceType a)%Q else acc.

Definition trailingIncrease (now : Z) (priceType : string)
    (history : list AdjustmentRecord) : Q :=
  fold_left (addTrailing now priceType) history 0%Q.

(** The cap of the [increase] case: at most 5% in seven days, and -1% when
    less than 1% is left. *)
Definition capIncrease (sevenDayInc adjustmentPercentage : Q) : Q :=
  (if Qgtb (sevenDayInc + adjustmentPercentage) 5 then
     let newAdjustment := Qmax 0 (5 - sevenDayInc) in
     if Qltb newAdjustment 1 then (-1) else newAdjustment
   else adjustmentPercentage)%Q.

(** The unscaled-or-weekend-scaled oscillation of the [hold] case:
    [oscillationDirection * oscillationMagnitude]. *)
Definition oscillation (dayOfWeek : Z) (baseOsc : Q) (lastOscillation : option Q) : Q :=
  let oscillationDirection : Q :=
    match lastOscillation with
    | Some last => if Qgtb last 0 then (-1) else 1     (* !== null *)
    | None => 1                                        (* default to upward *)
    end%Q in
  let isWeekend := (dayOfWeek =? 0) || (dayOfWeek =? 6) in
  let oscillationMagnitude :=
    (if isWeekend
     then (if Qgtb oscillationDirection 0 then baseOsc * (12 # 10) else baseOsc * (8 # 10))
     else baseOsc)%Q in
  (oscillationDirection * oscillationMagnitude)%Q.

(** [adjustmentPercentage > 0 && sevenDayIncrease + adjustmentPercentage > 4.5] *)
Definition nearSevenDayLimit (sevenDayInc adjustmentPercentage : Q) : bool :=
  Qgtb adjustmentPercentage 0 && Qgtb (sevenDayInc + adjustmentPercentage) (45 # 10).

(** The magnitude that the [increase] case proposes before the cap. *)
Definition proposedIncrease (c : Config) (thresholds : Thresholds) (sevenDayOcc : Q) : Q :=
  (if Qgeb sevenDayOcc (95 # 100) then increase_percentage c * (15 # 10)
   else if Qgeb sevenDayOcc (high thresholds) then increase_percentage c * (12 # 10)
   else increase_percentage c)%Q.

(** The [switch (strategy)] of [calculateAdjustedPrice].  [None] is the
    [default] case, which returns at once; otherwise the percentage, and
    whether the oscillation branch of [hold] computed it. *)
Definition adjustmentPercentageOf (strategy : string) (c : Config) (thresholds : Thresholds)
    (sevenDayOcc thirtyDayOcc weightedOcc : Q) (dayOfWeek : Z)
    (sevenDayInc : Q) (lastOscillation : option Q) : option (Q * bool) :=
  (if String.eqb strategy "increase" then
    Some (capIncrease sevenDayInc (proposedIncrease c thresholds sevenDayOcc), false)
  else if String.eqb strategy "decrease" then
    Some (if Qltb weightedOcc (critical thresholds)
          then - decrease_percentage c * (15 # 10)
          else if Qltb sevenDayOcc (30 # 100) && Qltb thirtyDayOcc (low thresholds)
          then - decrease_percentage c * (12 # 10)
          else - decrease_percentage c, false)
  else if String.eqb strategy "hold" then
    if Qgeb weightedOcc (low thresholds) && Qle_bool weightedOcc (high thresholds) then
      let adjustmentPercentage :=
        oscillation dayOfWeek (hold_oscillationPercentage c) lastOscillation in
      Some (if nearSevenDayLimit sevenDayInc adjustmentPercentage
            then (-1) else adjustmentPercentage, true)
    else if Qltb weightedOcc (low thresholds) then
      Some (- decrease_percentage c * (7 # 10), false)
    else
      let adjustmentPercentage := increase_percentage c * (7 # 10) in
      Some (if Qgtb (sevenDayInc + adjustmentPercentage) 5
            then Qmax 0 (5 - sevenDayInc) else adjustmentPercentage, false)
  else None)%Q.

(** [stats.lastOscillationDirection = adjustmentPercentage], under
    [if (this.propertyStats.has(propertyUrl))]. *)
Definition storeOscillation (propertyUrl : string) (adjustmentPercentage : Q)
    (stats : gmap string PropertyStats) : gmap string PropertyStats :=
  alter (fun s => mkStats (st_url s) (occupancyHistory s) (priceHistory s)
                    (adjustmentHistory s) (Some adjustmentPercentage) (lastUpdate s))
        propertyUrl stats.

(** [stats.adjustmentHistory.push({...})] *)
Definition pushAdjustment (propertyUrl : string) (a : AdjustmentRecord)
    (stats : gmap string PropertyStats) : gmap string PropertyStats :=
  alter (fun s => mkStats (st_url s) (occupancyHistory s) (priceHistory s)
                    (adjustmentHistory s ++ [a]) (lastOscillationDirection s) (lastUpdate s))
        propertyUrl stats.

(** Assigning [minPrice] or [basePrice] of a change, by [priceType]. *)
Definition setPrice (priceType : string) (p : PricePair) (change : ChangeRecord) : ChangeRecord :=
  if String.eqb priceType "min" then
    mkChange (ch_url change) (ch_date change) (ch_occupancy change)
      (Some p) (ch_basePrice change) (ch_error change)
  else if String.eqb priceType "base" then
    mkChange (ch_url change) (ch_date change) (ch_occupancy change)
      (ch_minPrice change) (Some p) (ch_error change)
  else change.

(** Update in place of the first element that satisfies [f]. *)
Fixpoint updateFirst {A} (f : A -> bool) (g : A -> A) (l : list A) : list A :=
  match l with
  | [] => []
  | x :: xs => if f x then g x :: xs else x :: updateFirst f g xs
  end.

(** The upsert into [this.currentChanges]: [existingChange] is the object
    held by the array, so assigning its field updates the array's entry. *)
Definition recordChange (now : Z) (propertyUrl : string) (currentOccupancy : Occupancy)
    (priceType : string) (p : PricePair) (changes : list ChangeRecord) : list ChangeRecord :=
  let sameUrl := fun change => String.eqb (ch_url change) propertyUrl in
  match find sameUrl changes with
  | Some _ => updateFirst sameUrl (setPrice priceType p) changes
  | None =>
      changes ++ [setPrice priceType p
                    (mkChange propertyUrl (todayOf now) (Some currentOccupancy) None None None)]
  end.

(** The floor of the min price: 80% of [stats.priceHistory[0].basePrice.after]. *)
Definition minAllowedPrice (recentPrices : PriceEntry) : Q :=
  Math_round (after (pe_basePrice recentPrices) * (8 # 10))%Q.

Definition floorMinPrice (propertyUrl priceType : string) (adjustedPrice : Q)
    (stats : gmap string PropertyStats) : Q :=
  if String.eqb priceType "min" then
    match stats !! propertyUrl with
    | Some s =>
        match priceHistory s with
        | recentPrices :: _ =>
            if Qgtb adjustedPrice (minAllowedPrice recentPrices)
            then minAllowedPrice recentPrices else adjustedPrice
        | [] => adjustedPrice
        end
    | None => adjustedPrice
    end
  else adjustedPrice.

(** The percentage that a call settles on, before any state is touched:
    the value of [adjustmentPercentage] after the [switch]. *)
Definition plannedAdjustment (now : Z) (propertyUrl : string) (currentOccupancy : Occupancy)
    (priceType : string) (e : Engine) : option (Q * bool) :=
  let strategy := getPropertyStrategy now propertyUrl currentOccupancy e in
  let sevenDayOcc := parseOccupancyRate (occ_7_day currentOccupancy) in
  let thirtyDayOcc := parseOccupancyRate (occ_30_day currentOccupancy) in
  let sixtyDayOcc := parseOccupancyRate (occ_60_day currentOccupancy) in
  let weights := weightsOf (config e) in
  let thresholds := thresholdsOf (config e) in
  let weightedOcc := weightedOccupancy weights sevenDayOcc thirtyDayOcc sixtyDayOcc in
  let dayOfWeek := getDay now in
  let sevenDayInc :=
    match propertyStats e !! propertyUrl with
    | Some stats => trailingIncrease now priceType (adjustmentHistory stats)
    | None => 0%Q
    end in
  let lastOscillation :=
    match propertyStats e !! propertyUrl with
    | Some stats => lastOscillationDirection stats
    | None => None
    end in
  adjustmentPercentageOf strategy (config e) thresholds sevenDayOcc thirtyDayOcc
    weightedOcc dayOfWeek sevenDayInc lastOscillation.

Definition applyPercentage (currentPrice adjustmentPercentage : Q) : Q :=
  Math_round (currentPrice + currentPrice * (adjustmentPercentage / 100))%Q.

(** [calculateAdjustedPrice(propertyUrl, currentPrice, currentOccupancy, priceType)]:
    the price returned and the engine after the call. *)
Definition calculateAdjustedPrice (now : Z) (propertyUrl : string) (currentPrice : Q)
    (currentOccupancy : Occupancy) (priceType : string) (e : Engine) : Q * Engine :=
  let strategy := getPropertyStrategy now propertyUrl currentOccupancy e in
  match plannedAdjustment now propertyUrl currentOccupancy priceType e with
  | None => (currentPrice, e)
  | Some (adjustmentPercentage, oscillated) =>
      let stats1 :=
        if oscillated then storeOscillation propertyUrl adjustmentPercentage (propertyStats e)
        else propertyStats e in
      let adjustedPrice := applyPercentage currentPrice adjustmentPercentage in
      let e2 :=
        match stats1 !! propertyUrl with
        | Some _ =>
            mkEngine (config e)
              (pushAdjustment propertyUrl
                 (mkAdjustment (todayOf now) strategy (Some adjustmentPercentage)
                    (if String.eqb priceType "min" then adjustmentPercentage else 0%Q)
                    (if String.eqb priceType "base" then adjustmentPercentage else 0%Q))
                 stats1)
              (recordChange now propertyUrl currentOccupancy priceType
                 (mkPricePair currentPrice adjustedPrice) (currentChanges e))
        | None => mkEngine (config e) stats1 (currentChanges e)
        end in
      (floorMinPrice propertyUrl priceType adjustedPrice (propertyStats e2), e2)
  end.

(** ** History ingestor *)

(** [if (entry.error)]: a non-empty message. *)
Definition hasError (entry : ChangeRecord) : bool :=
  match ch_error entry with
  | Some msg => negb (String.eqb msg "")
  | None => false
  end.

Definition emptyStats (url : string) : PropertyStats := mkStats url [] [] [] None None.

(** The strategy that [analyzeHistoricalData] reads off a pair of changes. *)
Definition strategyOfChanges (minChange baseChange : Q) : string :=
  if Qgtb minChange (5 # 10) || Qgtb baseChange (5 # 10) then "increase"
  else if Qltb minChange (- (5 # 10)) || Qltb baseChange (- (5 # 10)) then "decrease"
  else "hold".

Definition percentChangeOf (p : PricePair) : Q := ((after p - before p) / before p * 100)%Q.

(** One turn of [for (const entry of this.logs)]. *)
Definition analyzeEntry (stats : gmap string PropertyStats) (entry : ChangeRecord)
    : gmap string PropertyStats :=
  if hasError entry then stats
  else
    let url := ch_url entry in
    let s := default (emptyStats url) (stats !! url) in
    let occupancies :=
      match ch_occupancy entry with
      | Some o =>
          (occupancyHistory s ++
           [mkOccEntry (ch_date entry) (parseOccupancyRate (occ_7_day o))
              (parseOccupancyRate (occ_30_day o)) (parseOccupancyRate (occ_60_day o))])%list
      | None => occupancyHistory s
      end in
    let '(prices, adjustments) :=
      match ch_minPrice entry, ch_basePrice entry with
      | Some minP, Some baseP =>
          ((priceHistory s ++ [mkPriceEntry (ch_date entry) minP baseP])%list,
           if Qgtb (before minP) 0 && Qgtb (before baseP) 0 then
             (adjustmentHistory s ++
              [mkAdjustment (ch_date entry)
                 (strategyOfChanges (percentChangeOf minP) (percentChangeOf baseP))
                 None (percentChangeOf minP) (percentChangeOf baseP)])%list
           else adjustmentHistory s)
      | _, _ => (priceHistory s, adjustmentHistory s)
      end in
    let updated :=
      match lastUpdate s with
      | Some d => if dateMs d <? dateMs (ch_date entry) then Some (ch_date entry) else Some d
      | None => Some (ch_date entry)
      end in
    <[url := mkStats (st_url s) occupancies prices adjustments
               (lastOscillationDirection s) updated]> stats.

Definition analyzeHistoricalData (logs : list ChangeRecord)
    (stats : gmap string PropertyStats) : gmap string PropertyStats :=
  fold_left analyzeEntry logs stats.

(** ** Change ledger writers *)

(** One run of the ledger file, [{ lastRun, changes }]; a field that is
    missing, or a [changes] that is not an array, is [None]. *)
Record RunObject : Type := mkRun {
  lastRun : option string;
  changes : option (list ChangeRecord)
}.

(** What [JSON.parse] makes of a ledger file. *)
Inductive LedgerJson : Type :=
  | LedgerObject (run : RunObject)
  | LedgerArray (runs : list RunObject)     (* the older array-of-runs shape *)
  | LedgerPrimitive.                        (* null, a number, a string, a boolean *)

Inductive FileContent : Type :=
  | JsonText (j : LedgerJson)
  | NotJson.

(** The files, and the paths at which [fs.writeFile] rejects. *)
Record FileSystem : Type := mkFs {
  files : gmap string FileContent;
  unwritable : gset string
}.

(** [await fs.writeFile(path, JSON.stringify(...))]; [None] when it throws. *)
Definition writeFile (path : string) (content : FileContent) (fs : FileSystem)
    : option FileSystem :=
  if decide (path ∈ unwritable fs) then None
  else Some (mkFs (<[path := content]> (files fs)) (unwritable fs)).

Definition maxHistoryEntries : nat := 1000.

Definition freshRun (today : string) : RunObject := mkRun (Some today) (Some []).

(** [saveChangesToLog(logFile, newChanges)] of the main script.  Its result
    is dropped by the caller, so the embedding returns the files only. *)
Definition saveChangesToLog (today : string) (logFile : string)
    (newChanges : list ChangeRecord) (fs : FileSystem) : FileSystem :=
  let existingData :=
    match files fs !! logFile with
    | Some (JsonText j) => j
    | Some NotJson | None => LedgerObject (freshRun today)   (* the inner catch *)
    end in
  let attempt :=
    match existingData with
    | LedgerObject run =>
        let merged := (newChanges ++ default [] (changes run))%list in
        let kept :=
          if (maxHistoryEntries <? length merged)%nat
          then take maxHistoryEntries merged      (* slice(0, maxHistoryEntries) *)
          else merged in
        writeFile logFile (JsonText (LedgerObject (mkRun (Some today) (Some kept)))) fs
    | LedgerArray runs =>
        (* [lastRun] and [changes] become properties of the array, which
           [JSON.stringify] leaves out: the runs are written back as read *)
        writeFile logFile (JsonText (LedgerArray runs)) fs
    | LedgerPrimitive => None       (* assigning a property throws *)
    end in
  match attempt with
  | Some fs' => fs'
  | None =>
      match writeFile (logFile ++ ".backup-" ++ today)
              (JsonText (LedgerObject (mkRun (Some today) (Some newChanges)))) fs with
      | Some fs' => fs'
      | None => fs                  (* the backup failed as well: logged only *)
      end
  end.

(** [saveChanges()] of the strategy module: the engine and the files after. *)
Definition saveChanges (today : string) (e : Engine) (fs : FileSystem) : Engine * FileSystem :=
  match logFile (config e) with
  | None => (e, fs)
  | Some path =>
      if String.eqb path "" then (e, fs)
      else if (length (currentChanges e) =? 0)%nat then (e, fs)
      else
        let existingData :=
          match files fs !! path with
          | Some (JsonText (LedgerObject run)) => Some run
          | Some (JsonText (LedgerArray (run :: _))) => Some run    (* existingData[0] *)
          | Some (JsonText (LedgerArray [])) => Some (freshRun today)
          | Some (JsonText LedgerPrimitive) => None   (* every later access throws *)
          | Some NotJson | None => Some (freshRun today)
          end in
        match existingData with
        | None => (e, fs)
        | Some run =>
            let merged := (currentChanges e ++ default [] (changes run))%list in
            match writeFile path (JsonText (LedgerObject (mkRun (Some today) (Some merged)))) fs with
            | Some fs' => (mkEngine (config e) (propertyStats e) [], fs')
            | None => (e, fs)       (* the outer catch: the error is logged *)
            end
        end
  end.

(** ** A sequence of pricing calls on one property *)

Record Call : Type := mkCall { call_now : Z; call_price : Q; call_occupancy : Occupancy }.

(** What one call did: the strategy chosen, the percentage applied (absent
    in the [default] case) and the price returned. *)
Record Outcome : Type := mkOutcome {
  out_strategy : string;
  out_percentage : option Q;
  out_price : Q
}.

Definition outcomeOf (propertyUrl priceType : string) (c : Call) (e : Engine) : Outcome :=
  mkOutcome
    (getPropertyStrategy (call_now c) propertyUrl (call_occupancy c) e)
    (fst <$> plannedAdjustment (call_now c) propertyUrl (call_occupancy c) priceType e)
    (fst (calculateAdjustedPrice (call_now c) propertyUrl (call_price c)
            (call_occupancy c) priceType e)).







(** ** Vocabulary of the statements *)

(** The inputs whose percentage does not exceed 100: a number between 0 and
    100, or a string whose first numeric token is at most 100. *)
Definition withinPercentRange (v : JsValue) : Prop :=
  match v with
  | JsNumber n => (0 <= n <= 100)%Q
  | JsString s =>
      match regexNumericToken s with
      | Some tok => (parseFloatToken tok <= 100)%Q
      | None => True
      end
  | _ => True
  end.

(** The text [ints], [ints.fracs], [ints%] or [ints.fracs%]. *)
Definition percentText (ints fracs : list ascii) (suffix : string) : string :=
  string_of_list_ascii ints
  ++ match fracs with
     | [] => suffix
     | _ => String "." (string_of_list_ascii fracs ++ suffix)
     end.

(** The record that a call pushes on [adjustmentHistory]. *)
Definition adjustmentOf (now : Z) (strategy priceType : string) (adjustmentPercentage : Q)
    : AdjustmentRecord :=
  mkAdjustment (todayOf now) strategy (Some adjustmentPercentage)
    (if String.eqb priceType "min" then adjustmentPercentage else 0%Q)
    (if String.eqb priceType "base" then adjustmentPercentage else 0%Q).

(** The statistics of a property once a call has recorded its adjustment. *)
Definition statsAfter (a : AdjustmentRecord) (oscillated : bool) (s : PropertyStats)
    : PropertyStats :=
  mkStats (st_url s) (occupancyHistory s) (priceHistory s)
    (adjustmentHistory s ++ [a])
    (if oscillated
     then match percentChange a with Some p => Some p | None => lastOscillationDirection s end
     else lastOscillationDirection s)
    (lastUpdate s).


Definition trailingOf (now : Z) (propertyUrl priceType : string) (e : Engine) : Q :=
  match propertyStats e !! propertyUrl with
  | Some stats => trailingIncrease now priceType (adjustmentHistory stats)
  | None => 0%Q
  end.







(** What may be counted for each call: nothing negative, and something
    positive only for a percentage that the call applied under the cap. *)
Definition countedFits (propertyUrl priceType : string) (counted : Outcome -> Q)
    (e : Engine) : Prop :=
  forall c,
    (0 <= counted (outcomeOf propertyUrl priceType c e))%Q
    /\ ((0 < counted (outcomeOf propertyUrl priceType c e))%Q ->
        (trailingOf (call_now c) propertyUrl priceType e
         + counted (outcomeOf propertyUrl priceType c e) <= 5)%Q
        /\ exists oscillated,
             plannedAdjustment (call_now c) propertyUrl (call_occupancy c) priceType e
             = Some (counted (outcomeOf propertyUrl priceType c e), oscillated)).

(** The ledger that [saveChangesToLog] starts from. *)
Definition changesOnDisk (logFile : string) (fs : FileSystem) : option (list ChangeRecord) :=
  match files fs !! logFile with
  | Some (JsonText (LedgerObject run)) => Some (default [] (changes run))
  | Some (JsonText _) => None
  | Some NotJson | None => Some []
  end.

(** The price record that the replay of the ledger draws from one entry for
    the property [url], if any. *)
Definition priceEntryOf (url : string) (entry : ChangeRecord) : option PriceEntry :=
  if hasError entry then None
  else if String.eqb (ch_url entry) url then
    match ch_minPrice entry, ch_basePrice entry with
    | Some minP, Some baseP => Some (mkPriceEntry (ch_date entry) minP baseP)
    | _, _ => None
    end
  else None.

Definition priceHistoryOf (url : string) (stats : gmap string PropertyStats)
    : list PriceEntry :=
  priceHistory (default (emptyStats url) (stats !! url)).

(** ** Sample data *)

Definition sampleConfig : Config :=
  mkConfig "hold" None None 2 2 1 (Some "pricelabs_changes.json").

(** A listing whose ledger holds one entry: min price 100, base price 120. *)
Definition sampleStats : PropertyStats :=
  mkStats "listing-1" []
    [mkPriceEntry 19000 (mkPricePair 100 100) (mkPricePair 120 120)] [] None (Some 19000).

Definition sampleEngine : Engine := mkEngine sampleConfig {[ "listing-1" := sampleStats ]} [].

(** An engine started without a ledger: no property has statistics. *)
Definition coldEngine : Engine := mkEngine sampleConfig ∅ [].

Definition steadyOccupancy : Occupancy :=
  mkOccupancy (JsString "60%") (JsString "60%") (JsString "60%").

Definition fullOccupancy : Occupancy :=
  mkOccupancy (JsString "96%") (JsString "90%") (JsString "90%").

(** One in the morning of day 19002, a Monday. *)
Definition sampleNow : Z := 19002 * dayMs + 3600000.





(** A change of the ledger, and a ledger file filled to the limit. *)
Definition sampleChange (date : Z) : ChangeRecord :=
  mkChange "listing-1" date (Some steadyOccupancy)
    (Some (mkPricePair 100 101)) (Some (mkPricePair 120 121)) None.

Definition fullLedger : FileContent :=
  JsonText (LedgerObject (mkRun (Some "2022-01-10")
                            (Some (replicate maxHistoryEntries (sampleChange 19000))))).

Definition fullDisk : FileSystem := mkFs {[ "pricelabs_changes.json" := fullLedger ]} ∅.

(** A disk on which the ledger cannot be written. *)
Definition lockedDisk : FileSystem :=
  mkFs {[ "pricelabs_changes.json" := fullLedger ]} {[ "pricelabs_changes.json" ]}.

(** An engine holding one change of the current run. *)
Definition pendingEngine : Engine :=
  mkEngine sampleConfig {[ "listing-1" := sampleStats ]} [sampleChange 19010].


(** ** The rest of the main script and of the strategy module *)

(** *** Reading the occupancy cells of the page *)

(** [percentToDecimal(percentStr)] of the main script: the text of a cell as
    a decimal, [null] when there is nothing to read. *)
Definition percentToDecimal (percentStr : string) : JsValue :=
  if String.eqb percentStr "" || String.eqb percentStr "N/A" then JsNull
  else match regexNumericToken percentStr with
       | None => JsNull
       | Some tok => JsNumber (parseFloatToken tok / 100)
       end.

(** The [occupancyData] object built from the texts of the cells found:
    [{}] when there is none, otherwise one key per period, [null] for a
    cell that is missing. *)
Definition occupancyData (texts : list string) : Occupancy :=
  match texts with
  | [] => mkOccupancy JsUndefined JsUndefined JsUndefined
  | _ =>
      let cell := fun i : nat =>
        match texts !! i with
        | Some text => percentToDecimal text
        | None => JsNull
        end in
      mkOccupancy (cell 0%nat) (cell 1%nat) (cell 2%nat)
  end.

(** *** [retry(fn, maxRetries, retryDelay)] *)

(** What a call of [fn] throws when it fails: [null], [undefined], or a
    value [e] whose [message] the catch block can read and print (an
    [Error], a string, a number, ...). *)
Inductive Thrown (E : Type) : Type :=
  | ThrownNull
  | ThrownUndefined
  | ThrownValue (e : E).
Arguments ThrownNull {E}.
Arguments ThrownUndefined {E}.
Arguments ThrownValue {E} e.

Definition nullish {E} (t : Thrown E) : bool :=
  match t with
  | ThrownNull | ThrownUndefined => true
  | ThrownValue _ => false
  end.

(** How the promise of [retry] settles.  [Rejected lastError] is the
    [throw lastError] that follows the loop, [None] being the [undefined]
    of a [lastError] never assigned; [RejectedTypeError] is the [TypeError]
    that the catch block itself raises when it reads [error.message] on
    [null] or [undefined]. *)
Inductive Settled (A E : Type) : Type :=
  | Fulfilled (value : A)
  | Rejected (error : option E)
  | RejectedTypeError.
Arguments Fulfilled {A E} value.
Arguments Rejected {A E} error.
Arguments RejectedTypeError {A E}.

(** What a run of [retry] did: how it settled, how many times it called
    [fn], and for how long it slept between the calls. *)
Record RetryRun (A E : Type) : Type := mkRetryRun {
  settled : Settled A E;
  attempts : nat;
  slept : Z
}.
Arguments mkRetryRun {A E} settled attempts slept.
Arguments settled {A E} r.
Arguments attempts {A E} r.
Arguments slept {A E} r.

(** The loop [for (attempt = 1; attempt <= maxRetries; attempt++)], with
    [remaining] turns to go; [fn n] is the outcome of the n-th call of the
    function retried.  The catch block first prints [error.message]: on
    [null] or [undefined] that read throws, out of the loop and out of
    [retry], before [lastError] is assigned or any sleep is taken. *)
Fixpoint retryLoop {A E} (fn : nat -> Thrown E + A) (retryDelay : Z)
    (remaining attempt : nat) (lastError : option E) (sleptSoFar : Z) : RetryRun A E :=
  match remaining with
  | O => mkRetryRun (Rejected lastError) (attempt - 1) sleptSoFar    (* throw lastError *)
  | S rest =>
      match fn attempt with
      | inr value => mkRetryRun (Fulfilled value) attempt sleptSoFar
      | inl (ThrownValue error) =>
          retryLoop fn retryDelay rest (S attempt) (Some error)
            (if (0 <? rest)%nat then sleptSoFar + retryDelay else sleptSoFar)
      | inl ThrownNull | inl ThrownUndefined =>
          mkRetryRun RejectedTypeError attempt sleptSoFar
      end
  end.

Definition retry {A E} (fn : nat -> Thrown E + A) (maxRetries : nat) (retryDelay : Z)
    : RetryRun A E :=
  retryLoop fn retryDelay maxRetries 1 None 0.

(** *** [initialize(config)] *)

(** [this.logs] after the ledger was read: every run of the array shape,
    the changes of the single object, nothing when the file is missing or
    cannot be read as a ledger. *)
Definition loadLogs (c : Config) (fs : FileSystem) : list ChangeRecord :=
  match logFile c with
  | None => []
  | Some path =>
      match files fs !! path with
      | Some (JsonText (LedgerArray runs)) =>
          flat_map (fun run => default [] (changes run)) runs
      | Some (JsonText (LedgerObject run)) => default [] (changes run)
      | Some (JsonText LedgerPrimitive) => []
      | Some NotJson | None => []
      end
  end.

Definition initialize (c : Config) (fs : FileSystem) : Engine :=
  mkEngine c (analyzeHistoricalData (loadLogs c fs) ∅) [].

(** *** The end of [runBot] *)

(** The record that the main script pushes on [changes] for a property it
    processed. *)
Definition uiChange (url : string) (date : Z) (occupancyRates : Occupancy)
    (minPrice newMinPrice basePrice newBasePrice : Q) : ChangeRecord :=
  mkChange url date (Some occupancyRates)
    (Some (mkPricePair minPrice newMinPrice))
    (Some (mkPricePair basePrice newBasePrice)) None.

(** The saving of the logs: the strategy module first, then the changes of
    the script itself when some price stayed as it was, or when the ledger
    does not exist yet.  [strategyToday] is the date that [saveChanges]
    reads off the clock.  Without a [logFile] in the configuration the path
    is [undefined]: no file exists there, the write throws, and the backup
    goes to the file that the template string names. *)
Definition saveLogs (today strategyToday : string) (hasUiOnlyChanges : bool)
    (uiChanges : list ChangeRecord) (e : Engine) (fs : FileSystem) : Engine * FileSystem :=
  let '(e1, fs1) := saveChanges strategyToday e fs in
  match logFile (config e) with
  | Some logPath =>
      let fileExists := bool_decide (is_Some (files fs1 !! logPath)) in
      if (hasUiOnlyChanges && negb (length uiChanges =? 0)%nat) || negb fileExists
      then (e1, saveChangesToLog today logPath uiChanges fs1)
      else (e1, fs1)
  | None =>
      match writeFile ("undefined.backup-" ++ today)
              (JsonText (LedgerObject (mkRun (Some today) (Some uiChanges)))) fs1 with
      | Some fs2 => (e1, fs2)
      | None => (e1, fs1)
      end
  end.

(** *** The occupancy model of the simulation *)

Record SimulatedProperty : Type := mkSimulated {
  elasticity : Q;
  seasonality : Q;
  weekendPremium : Q;
  randomVariation : Q;
  baselineBookingProbability : Q
}.

(** [calculateNewOccupancy] of the simulation.  The two values that the code
    draws from the library are arguments: [seasonalPosition], the sine of
    the position in the year, and [random], the draw of [Math.random()]. *)
Definition calculateNewOccupancy (property : SimulatedProperty)
    (currentOccupancy oldPrice newPrice : Q) (seasonalPosition : Q) (dayOfWeek : Z)
    (random : Q) : Q :=
  (let priceRatio := if Qgtb oldPrice 0 then newPrice / oldPrice else 1 in
   let elasticityEffect := 1 - (priceRatio - 1) * elasticity property in
   let seasonalityEffect := 1 + seasonalPosition * seasonality property in
   let isWeekend := (dayOfWeek =? 0)%Z || (dayOfWeek =? 6)%Z in
   let weekendEffect := if isWeekend then 1 + weekendPremium property else 1 in
   let randomEffect := 1 + (random * 2 - 1) * randomVariation property in
   let adjustedBookingProbability :=
     baselineBookingProbability property
     * elasticityEffect * seasonalityEffect * weekendEffect * randomEffect in
   let newBookingRate := Qmin adjustedBookingProbability (30 # 100) in
   let cancellationRate := currentOccupancy * (5 # 100) in
   let occupancyChange := newBookingRate - cancellationRate in
   Qmax 0 (Qmin 1 (currentOccupancy + occupancyChange)))%Q.

(** The sample listing after a replayed raise of 4% of both prices. *)
Definition raisedStats : PropertyStats :=
  mkStats "listing-1" []
    [mkPriceEntry 19001 (mkPricePair 100 104) (mkPricePair 125 130)]
    [mkAdjustment 19001 "increase" None 4 4] None (Some 19001).

Definition raisedEngine : Engine :=
  mkEngine sampleConfig {[ "listing-1" := raisedStats ]} [].

(** [newer a b]: the entry [a] may stand before [b] in the sorted history. *)
Definition newer (a b : OccupancyEntry) : Prop := oe_date b <= oe_date a.

(** The entries of the run's buffer that belong to [propertyUrl]. *)
Definition sameUrl (propertyUrl : string) (change : ChangeRecord) : bool :=
  String.eqb (ch_url change) propertyUrl.

(** The replay of the ledger takes [entry] into the statistics of [url]. *)
Definition replayedFor (url : string) (entry : ChangeRecord) : bool :=
  negb (hasError entry) && String.eqb (ch_url entry) url.

(** The occupancy reading that the replay draws from one entry for [url]. *)
Definition occupancyEntryOf (url : string) (entry : ChangeRecord) : option OccupancyEntry :=
  if replayedFor url entry then
    match ch_occupancy entry with
    | Some o =>
        Some (mkOccEntry (ch_date entry) (parseOccupancyRate (occ_7_day o))
                (parseOccupancyRate (occ_30_day o)) (parseOccupancyRate (occ_60_day o)))
    | None => None
    end
  else None.

(** What the replay has made of the entries [logs] for [url]: no statistics
    when no entry was taken, otherwise statistics filed under [url] whose
    last update is the latest date among the entries taken. *)
Definition replayedUpTo (logs : list ChangeRecord) (url : string)
    (found : option PropertyStats) : Prop :=
  match found with
  | None => forall entry, entry ∈ logs -> replayedFor url entry = false
  | Some s =>
      st_url s = url
      /\ exists latest,
           lastUpdate s = Some latest
           /\ (forall entry, entry ∈ logs -> replayedFor url entry = true ->
                 ch_date entry <= latest)
           /\ (exists entry,
                 entry ∈ logs /\ replayedFor url entry = true /\ ch_date entry = latest)
  end.

Definition occupancyHistoryOf (url : string) (stats : gmap string PropertyStats)
    : list OccupancyEntry :=
  occupancyHistory (default (emptyStats url) (stats !! url)).

(** The three values of a reading lie between 0 and 1. *)
Definition unitReading (r : OccupancyEntry) : Prop :=
  ((0 <= sevenDay r)%Q /\ (sevenDay r <= 1)%Q)
  /\ ((0 <= thirtyDay r)%Q /\ (thirtyDay r <= 1)%Q)
  /\ ((0 <= sixtyDay r)%Q /\ (sixtyDay r <= 1)%Q).

(** A ledger of three entries: two changes of the sample listing and a
    failure on another one. *)
Definition sampleLedger : list ChangeRecord :=
  [sampleChange 19005;
   mkChange "listing-2" 19012 None None None (Some "Navigation timeout");
   sampleChange 19010].

(** The changes that [saveChanges] takes over from the ledger on disk:
    those of the single object, those of the first run of an array of
    runs; [None] when the file holds a JSON value that is no ledger. *)
Definition keptBySaveChanges (path : string) (fs : FileSystem)
    : option (list ChangeRecord) :=
  match files fs !! path with
  | Some (JsonText (LedgerObject run)) => Some (default [] (changes run))
  | Some (JsonText (LedgerArray (run :: _))) => Some (default [] (changes run))
  | Some (JsonText (LedgerArray [])) => Some []
  | Some (JsonText LedgerPrimitive) => None
  | Some NotJson | None => Some []
  end.

(** A ledger of the older shape, with two runs. *)
Definition twoRunDisk : FileSystem :=
  mkFs {[ "pricelabs_changes.json" :=
            JsonText (LedgerArray [mkRun (Some "2022-01-12") (Some [sampleChange 19004]);
                                   mkRun (Some "2022-01-11") (Some [sampleChange 19003])]) ]}
       ∅.

(** A disk without any file, on which every path can be written. *)
Definition emptyDisk : FileSystem := mkFs ∅ ∅.

(** A price history in the order newest first, by the dates of its
    records; strictly so when no two records share a date. *)
Definition newestFirst (history : list PriceEntry) : Prop :=
  StronglySorted (fun a b => pe_date b <= pe_date a) history.

Definition strictlyNewestFirst (history : list PriceEntry) : Prop :=
  StronglySorted (fun a b => pe_date b < pe_date a) history.

(** [r] is a record of the history that no record is more recent than. *)
Definition latestRecord (history : list PriceEntry) (r : PriceEntry) : Prop :=
  r ∈ history /\ forall x, x ∈ history -> pe_date x <= pe_date r.

(** The floor measured against the most recently dated base price: every
    min price returned for [propertyUrl] is at most 80% of the after-value
    of any record of the latest date. *)
Definition floorAgainstLatest (e : Engine) (propertyUrl : string) : Prop :=
  forall now currentPrice currentOccupancy stats r,
    propertyStats e !! propertyUrl = Some stats ->
    latestRecord (priceHistory stats) r ->
    (fst (calculateAdjustedPrice now propertyUrl currentPrice currentOccupancy "min" e)
     <= Math_round ((8 # 10) * after (pe_basePrice r)))%Q.

(** A ledger whose entries are listed newest first. *)
Definition ledgerNewestFirst (logs : list ChangeRecord) : Prop :=
  StronglySorted (fun a b => ch_date b <= ch_date a) logs.

(** A ledger of the older shape that lists its runs oldest first: the base
    price of the listing was 200 on day 19000 and 100 on day 19005. *)
Definition chronologicalDisk : FileSystem :=
  mkFs {[ "pricelabs_changes.json" :=
            JsonText (LedgerArray
              [mkRun (Some "2022-01-08")
                 (Some [mkChange "listing-1" 19000 None
                          (Some (mkPricePair 100 100)) (Some (mkPricePair 200 200)) None]);
               mkRun (Some "2022-01-13")
                 (Some [mkChange "listing-1" 19005 None
                          (Some (mkPricePair 100 100)) (Some (mkPricePair 100 100)) None])]) ]}
       ∅.

Definition chronologicalEngine : Engine := initialize sampleConfig chronologicalDisk.

(** * Properties *)

(** ** Comparisons *)

Lemma Qltb_lt a b : Qltb a b = true <-> (a < b)%Q.
Proof.
  unfold Qltb. rewrite negb_true_iff, <- not_true_iff_false, Qle_bool_iff.
  split; [apply Qnot_le_lt | apply Qlt_not_le].
Qed.

Lemma Qltb_ge a b : Qltb a b = false <-> (b <= a)%Q.
Proof. unfold Qltb. rewrite negb_false_iff. apply Qle_bool_iff. Qed.

Lemma Qgtb_gt a b : Qgtb a b = true <-> (b < a)%Q.
Proof. apply Qltb_lt. Qed.

Lemma Qgtb_le a b : Qgtb a b = false <-> (a <= b)%Q.
Proof. apply Qltb_ge. Qed.

Lemma Qgeb_ge a b : Qgeb a b = true <-> (b <= a)%Q.
Proof. apply Qle_bool_iff. Qed.

Lemma Qgeb_lt a b : Qgeb a b = false <-> (a < b)%Q.
Proof.
  unfold Qgeb. rewrite <- not_true_iff_false, Qle_bool_iff.
  split; [apply Qnot_le_lt | apply Qlt_not_le].
Qed.

(** Turns the boolean tests of the hypotheses into order facts. *)
Ltac order_facts :=
  repeat match goal with
  | H : Qltb _ _ = true |- _ => apply Qltb_lt in H
  | H : Qltb _ _ = false |- _ => apply Qltb_ge in H
  | H : Qgtb _ _ = true |- _ => apply Qgtb_gt in H
  | H : Qgtb _ _ = false |- _ => apply Qgtb_le in H
  | H : Qgeb _ _ = true |- _ => apply Qgeb_ge in H
  | H : Qgeb _ _ = false |- _ => apply Qgeb_lt in H
  | H : Qle_bool _ _ = true |- _ => apply Qle_bool_iff in H
  end.

(** Linear arithmetic over the rationals, with the division by 100 of the
    percentages written as a product. *)
Ltac percent_lra :=
  unfold Qdiv in *; change (/ 100)%Q with (1 # 100)%Q in *; lra.

(** ** Occupancy normalizer *)

Lemma spanDigits_digits s : Forall (fun c => isDigit c = true) (fst (spanDigits s)).
Proof.
  induction s as [|c s IH]; simpl; [constructor|].
  destruct (isDigit c) eqn:Hc; [|constructor].
  destruct (spanDigits s) as [ds tl]. simpl in *. constructor; assumption.
Qed.

Lemma digitValue_nonneg c : isDigit c = true -> 0 <= digitValue c.
Proof.
  unfold isDigit, digitValue. intros H.
  apply andb_true_iff in H as [H _]. apply Nat.leb_le in H. lia.
Qed.

Lemma digitsValue_from_nonneg ds acc :
  Forall (fun c => isDigit c = true) ds -> 0 <= acc ->
  0 <= fold_left (fun a c => 10 * a + digitValue c) ds acc.
Proof.
  intros H. revert acc. induction H as [|c ds Hc _ IH]; simpl; intros acc Hacc; [lia|].
  apply IH. pose proof (digitValue_nonneg c Hc). lia.
Qed.

Lemma digitsValue_nonneg ds : Forall (fun c => isDigit c = true) ds -> 0 <= digitsValue ds.
Proof. intros H. apply digitsValue_from_nonneg; [assumption | lia]. Qed.

Lemma regexNumericToken_digits s ints fracs :
  regexNumericToken s = Some (ints, fracs) ->
  Forall (fun c => isDigit c = true) ints /\ Forall (fun c => isDigit c = true) fracs.
Proof.
  induction s as [|c s IH]; [discriminate|].
  cbn [regexNumericToken]. destruct (isDigit c) eqn:Hc; [|exact IH].
  pose proof (spanDigits_digits (String c s)) as Hi.
  destruct (spanDigits (String c s)) as [ids tl]. simpl in Hi.
  destruct tl as [|d tl'].
  - intros [= <- <-]. split; [assumption | constructor].
  - destruct (Ascii.eqb d ".") eqn:Hd.
    + apply Ascii.eqb_eq in Hd. subst d.
      pose proof (spanDigits_digits tl') as Hf.
      destruct (spanDigits tl') as [fs tl'']. simpl in Hf.
      intros [= <- <-]. split; assumption.
    + assert (Hne : d <> "."%char) by (intros ->; rewrite Ascii.eqb_refl in Hd; discriminate).
      destruct d as [[] [] [] [] [] [] [] []];
        try (intros [= <- <-]; split; [assumption | constructor]).
      contradiction Hne; reflexivity.
Qed.

Lemma parseFloatToken_nonneg s tok :
  regexNumericToken s = Some tok -> (0 <= parseFloatToken tok)%Q.
Proof.
  destruct tok as [ints fracs]. intros H.
  apply regexNumericToken_digits in H as [Hi Hf].
  unfold parseFloatToken, Qle. cbn [Qnum Qden].
  pose proof (digitsValue_nonneg _ Hi). pose proof (digitsValue_nonneg _ Hf).
  assert (0 < 10 ^ Z.of_nat (length fracs)) by (apply Z.pow_pos_nonneg; lia).
  nia.
Qed.

Lemma spanDigits_text ds rest :
  Forall (fun c => isDigit c = true) ds ->
  match rest with String c _ => isDigit c = false | EmptyString => True end ->
  spanDigits (string_of_list_ascii ds ++ rest) = (ds, rest).
Proof.
  intros Hds Hrest. induction Hds as [|c ds Hc _ IH]; simpl.
  - destruct rest as [|c r]; [reflexivity|]. simpl. rewrite Hrest. reflexivity.
  - rewrite Hc, IH. reflexivity.
Qed.

Lemma regexNumericToken_percentText ints fracs suffix :
  ints <> [] ->
  Forall (fun c => isDigit c = true) ints ->
  Forall (fun c => isDigit c = true) fracs ->
  suffix = "" \/ suffix = "%" ->
  regexNumericToken (percentText ints fracs suffix) = Some (ints, fracs).
Proof.
  intros Hne Hi Hf Hs. unfold percentText.
  destruct ints as [|c ints']; [congruence|].
  change (string_of_list_ascii (c :: ints') ++ ?r)
    with (String c (string_of_list_ascii ints' ++ r)).
  cbn [regexNumericToken]. inversion Hi as [|? ? Hc Hi']; subst. rewrite Hc.
  change (String c (string_of_list_ascii ints' ++ ?r))
    with (string_of_list_ascii (c :: ints') ++ r).
  destruct fracs as [|f fracs'].
  - rewrite spanDigits_text; [|assumption|destruct Hs; subst; simpl; auto].
    destruct Hs; subst; reflexivity.
  - rewrite spanDigits_text; [|assumption|reflexivity].
    rewrite spanDigits_text; [reflexivity|assumption|destruct Hs; subst; simpl; auto].
Qed.

Lemma digit_text_not_missing c s :
  isDigit c = true ->
  String.eqb (String c s) "N/A" || String.eqb (String c s) "" = false.
Proof.
  intros Hc. apply orb_false_iff. split; [|reflexivity].
  destruct (String.eqb_spec (String c s) "N/A") as [E|]; [|reflexivity].
  injection E as -> _. discriminate Hc.
Qed.

(** C3 (amended): the results of the normalizer on the inputs it accepts.
    Missing and unrecognized inputs give 0, the five documented values hold,
    and the result lies in [0,1] whenever the percentage given does not
    exceed 100 (a number in [0,100], or a string whose first numeric token
    is at most 100). *)
Theorem parseOccupancyRate_unit_interval :
  (forall v, withinPercentRange v ->
     (0 <= parseOccupancyRate v)%Q /\ (parseOccupancyRate v <= 1)%Q)
  /\ (parseOccupancyRate (JsString "N/A") == 0)%Q
  /\ (parseOccupancyRate JsNull == 0)%Q
  /\ (parseOccupancyRate JsUndefined == 0)%Q
  /\ (parseOccupancyRate (JsString "") == 0)%Q
  /\ (parseOccupancyRate JsOther == 0)%Q
  /\ (forall s, regexNumericToken s = None -> (parseOccupancyRate (JsString s) == 0)%Q)
  /\ (parseOccupancyRate (JsString "85%") == 85 # 100)%Q
  /\ (parseOccupancyRate (JsNumber (85 # 100)) == 85 # 100)%Q
  /\ (parseOccupancyRate (JsNumber 85) == 85 # 100)%Q.
Proof.
  split; [|repeat split; try reflexivity].
  - intros [| |n|s|] Hv; simpl in *; try (split; lra).
    + destruct (Qgtb n 1) eqn:Hn; order_facts; split; percent_lra.
    + destruct (String.eqb s "N/A" || String.eqb s ""); [split; lra|].
      destruct (regexNumericToken s) as [tok|] eqn:Htok; [|split; lra].
      pose proof (parseFloatToken_nonneg _ _ Htok). split; percent_lra.
  - intros s Hs. simpl. rewrite Hs.
    destruct (String.eqb s "N/A" || String.eqb s ""); reflexivity.
Qed.

Lemma parseOccupancyRate_unit_interval_witness :
  ((0 <= parseOccupancyRate (JsString "85%"))%Q
   /\ (parseOccupancyRate (JsString "85%") <= 1)%Q)
  /\ (parseOccupancyRate (JsString "unknown") == 0)%Q.
Proof.
  split.
  - apply (proj1 parseOccupancyRate_unit_interval (JsString "85%")).
    vm_compute. discriminate.
  - apply (proj1 (proj2 (proj2 (proj2 (proj2 (proj2 (proj2
             parseOccupancyRate_unit_interval)))))) "unknown").
    reflexivity.
Defined.

(** C3, as first stated, fails: the number 150 is accepted and normalizes
    to 1.5, and the number -1/2 to itself, both outside [0,1]. *)
Lemma parseOccupancyRate_outside_unit_interval :
  ~ ((0 <= parseOccupancyRate (JsNumber 150))%Q
     /\ (parseOccupancyRate (JsNumber 150) <= 1)%Q)
  /\ ~ ((0 <= parseOccupancyRate (JsNumber (- (1 # 2))))%Q
        /\ (parseOccupancyRate (JsNumber (- (1 # 2))) <= 1)%Q).
Proof.
  split.
  - intros [_ H]. vm_compute in H. apply H. reflexivity.
  - intros [H _]. vm_compute in H. apply H. reflexivity.
Qed.

(** C4 (amended): on a string made of a numeric prefix and an optional
    percent sign, the normalizer reads the leading numeric token and divides
    it by 100 whatever its size; the text 0.5 gives 0.005 and the text 85%
    gives 0.85.  Only a number is divided by 100 when it is greater than 1,
    and returned as it is otherwise. *)
Theorem parseOccupancyRate_string_divides_by_100 :
  (forall ints fracs suffix,
     ints <> [] ->
     Forall (fun c => isDigit c = true) ints ->
     Forall (fun c => isDigit c = true) fracs ->
     suffix = "" \/ suffix = "%" ->
     parseOccupancyRate (JsString (percentText ints fracs suffix))
     = (parseFloatToken (ints, fracs) / 100)%Q)
  /\ (forall n, (1 < n)%Q -> parseOccupancyRate (JsNumber n) = (n / 100)%Q)
  /\ (forall n, (n <= 1)%Q -> parseOccupancyRate (JsNumber n) = n)
  /\ (parseOccupancyRate (JsString "0.5") == 5 # 1000)%Q
  /\ (parseOccupancyRate (JsString "85%") == 85 # 100)%Q.
Proof.
  split; [|split; [|split; [|split; reflexivity]]].
  - intros ints fracs suffix Hne Hi Hf Hs.
    unfold parseOccupancyRate.
    rewrite (regexNumericToken_percentText ints fracs suffix Hne Hi Hf Hs).
    destruct ints as [|c ints']; [congruence|].
    inversion Hi as [|? ? Hc _]; subst.
    unfold percentText.
    change (string_of_list_ascii (c :: ints') ++ ?r)
      with (String c (string_of_list_ascii ints' ++ r)).
    rewrite (digit_text_not_missing c _ Hc). reflexivity.
  - intros n Hn. cbn [parseOccupancyRate].
    destruct (Qgtb n 1) eqn:Htest; [reflexivity|]. order_facts. lra.
  - intros n Hn. cbn [parseOccupancyRate].
    destruct (Qgtb n 1) eqn:Htest; [|reflexivity]. order_facts. lra.
Qed.

Lemma parseOccupancyRate_string_divides_by_100_witness :
  parseOccupancyRate (JsString "0.5") = ((5 # 10) / 100)%Q
  /\ parseOccupancyRate (JsNumber 85) = (85 / 100)%Q
  /\ parseOccupancyRate (JsNumber (85 # 100)) = (85 # 100)%Q.
Proof.
  split; [|split].
  - apply (proj1 parseOccupancyRate_string_divides_by_100 ["0"%char] ["5"%char] "").
    + discriminate.
    + repeat constructor.
    + repeat constructor.
    + left; reflexivity.
  - apply (proj1 (proj2 parseOccupancyRate_string_divides_by_100) 85%Q). reflexivity.
  - apply (proj1 (proj2 (proj2 parseOccupancyRate_string_divides_by_100)) (85 # 100)%Q).
    vm_compute. discriminate.
Defined.

(** C4, as first stated, fails: the text 0.5 is not returned unchanged. *)
Lemma parseOccupancyRate_half_not_kept :
  ~ (parseOccupancyRate (JsString "0.5") == 5 # 10)%Q.
Proof. vm_compute. discriminate. Qed.

(** ** Strategy classifier *)





(** The records that the engine files under [decrease] are counted by the
    loop: those replayed from the ledger always, those of a call whenever the
    percentage it applied is negative. *)
Lemma replayed_decrease_is_counted date minP baseP :
  strategyOfChanges (percentChangeOf minP) (percentChangeOf baseP) = "decrease" ->
  isDecreaseAdjustment
    (mkAdjustment date (strategyOfChanges (percentChangeOf minP) (percentChangeOf baseP))
       None (percentChangeOf minP) (percentChangeOf baseP)) = true.
Proof.
  intros Hdec. unfold isDecreaseAdjustment. cbn [adj_strategy minPricePercentChange
    basePricePercentChange]. rewrite Hdec. cbn [String.eqb Ascii.eqb Bool.eqb andb].
  unfold strategyOfChanges in Hdec.
  destruct (Qgtb (percentChangeOf minP) (5 # 10) || Qgtb (percentChangeOf baseP) (5 # 10));
    [discriminate|].
  destruct (Qltb (percentChangeOf minP) (- (5 # 10))) eqn:Hmin;
    destruct (Qltb (percentChangeOf baseP) (- (5 # 10))) eqn:Hbase;
    cbn [orb] in Hdec; try discriminate; order_facts; apply orb_true_iff.
  - left. apply Qltb_lt. lra.
  - left. apply Qltb_lt. lra.
  - right. apply Qltb_lt. lra.
Qed.

Lemma recorded_decrease_is_counted now priceType p :
  priceType = "min" \/ priceType = "base" ->
  (p < 0)%Q ->
  isDecreaseAdjustment (adjustmentOf now "decrease" priceType p) = true.
Proof.
  intros [-> | ->] Hp; apply Qltb_lt in Hp; unfold isDecreaseAdjustment;
    cbn [adjustmentOf adj_strategy minPricePercentChange basePricePercentChange
         String.eqb Ascii.eqb Bool.eqb andb]; rewrite Hp; auto using orb_true_r.
Qed.

Lemma sliceLast_keeps_tail {A} (n : nat) (l t : list A) :
  (length t <= n)%nat -> exists front, sliceLast n (l ++ t) = (front ++ t)%list.
Proof.
  intros Hn. unfold sliceLast. exists (skipn (length (l ++ t) - n) l).
  rewrite skipn_app.
  replace (length (l ++ t) - n - length l)%nat with 0%nat; [reflexivity|].
  rewrite length_app. lia.
Qed.


(** ** Adjustment calculator *)

(** With statistics at hand the classifier always names one of the three
    strategies, so the [default] case of the [switch] is out of reach. *)
Lemma strategy_of_known_property now propertyUrl currentOccupancy e stats :
  propertyStats e !! propertyUrl = Some stats ->
  getPropertyStrategy now propertyUrl currentOccupancy e = "increase"
  \/ getPropertyStrategy now propertyUrl currentOccupancy e = "decrease"
  \/ getPropertyStrategy now propertyUrl currentOccupancy e = "hold".
Proof.
  intros Hstats. unfold getPropertyStrategy. rewrite Hstats.
  repeat match goal with |- context [if ?b then _ else _] => destruct b end; auto.
Qed.

Lemma plannedAdjustment_known now propertyUrl currentOccupancy priceType e stats :
  propertyStats e !! propertyUrl = Some stats ->
  exists p oscillated,
    plannedAdjustment now propertyUrl currentOccupancy priceType e = Some (p, oscillated).
Proof.
  intros Hstats. unfold plannedAdjustment, adjustmentPercentageOf.
  destruct (strategy_of_known_property now propertyUrl currentOccupancy e stats Hstats)
    as [-> | [-> | ->]]; cbn [String.eqb Ascii.eqb Bool.eqb andb];
    repeat match goal with |- context [if ?b then _ else _] => destruct b end; eauto.
Qed.

(** What a call does on a property that has statistics. *)
Lemma calculateAdjustedPrice_known now propertyUrl currentPrice currentOccupancy priceType
    e stats p oscillated :
  propertyStats e !! propertyUrl = Some stats ->
  plannedAdjustment now propertyUrl currentOccupancy priceType e = Some (p, oscillated) ->
  exists recorded,
    recorded !! propertyUrl
      = Some (statsAfter
                (adjustmentOf now (getPropertyStrategy now propertyUrl currentOccupancy e)
                   priceType p) oscillated stats)
    /\ (forall other, other <> propertyUrl -> recorded !! other = propertyStats e !! other)
    /\ calculateAdjustedPrice now propertyUrl currentPrice currentOccupancy priceType e
       = (floorMinPrice propertyUrl priceType (applyPercentage currentPrice p) recorded,
          mkEngine (config e) recorded
            (recordChange now propertyUrl currentOccupancy priceType
               (mkPricePair currentPrice (applyPercentage currentPrice p))
               (currentChanges e))).
Proof.
  intros Hstats Hplan. unfold calculateAdjustedPrice. rewrite Hplan. cbv zeta.
  unfold storeOscillation, pushAdjustment.
  destruct oscillated.
  - rewrite lookup_alter_eq, Hstats. cbn [fmap option_fmap option_map].
    eexists. split; [|split; [|reflexivity]].
    + rewrite !lookup_alter_eq, Hstats. reflexivity.
    + intros other Hne. rewrite !lookup_alter_ne by congruence. reflexivity.
  - rewrite Hstats.
    eexists. split; [|split; [|reflexivity]].
    + rewrite lookup_alter_eq, Hstats. reflexivity.
    + intros other Hne. rewrite lookup_alter_ne by congruence. reflexivity.
Qed.

Lemma floorMinPrice_le propertyUrl adjustedPrice (m : gmap string PropertyStats) s recent rest :
  m !! propertyUrl = Some s ->
  priceHistory s = recent :: rest ->
  (floorMinPrice propertyUrl "min" adjustedPrice m <= minAllowedPrice recent)%Q.
Proof.
  intros Hs Hp. unfold floorMinPrice. cbn [String.eqb Ascii.eqb Bool.eqb andb].
  rewrite Hs, Hp.
  destruct (Qgtb adjustedPrice (minAllowedPrice recent)) eqn:Hgt; order_facts; lra.
Qed.

Lemma Math_round_comp a b : (a == b)%Q -> Math_round a = Math_round b.
Proof. intros H. unfold Math_round. rewrite H. reflexivity. Qed.

Lemma analyzeEntry_priceHistory url stats entry :
  priceHistoryOf url (analyzeEntry stats entry)
  = (priceHistoryOf url stats
     ++ match priceEntryOf url entry with Some p => [p] | None => [] end)%list.
Proof.
  unfold priceHistoryOf, analyzeEntry, priceEntryOf.
  destruct (hasError entry); [rewrite app_nil_r; reflexivity|].
  destruct (String.eqb_spec (ch_url entry) url) as [-> | Hne].
  - destruct (ch_minPrice entry) as [minP|], (ch_basePrice entry) as [baseP|];
      rewrite lookup_insert_eq; cbn; rewrite ?app_nil_r; reflexivity.
  - destruct (ch_minPrice entry) as [minP|], (ch_basePrice entry) as [baseP|];
      rewrite lookup_insert_ne by exact Hne; rewrite app_nil_r; reflexivity.
Qed.

(** The replay keeps the order of the ledger: the price history of a
    property lists its entries as the file does, so its first record comes
    from the first entry of the file that carries both prices of the
    property. *)
Lemma analyzeHistoricalData_priceHistory url logs : forall stats,
  priceHistoryOf url (analyzeHistoricalData logs stats)
  = (priceHistoryOf url stats ++ omap (priceEntryOf url) logs)%list.
Proof.
  induction logs as [|entry logs IH]; intros stats; cbn [analyzeHistoricalData fold_left].
  - rewrite app_nil_r. reflexivity.
  - fold (analyzeHistoricalData logs (analyzeEntry stats entry)).
    rewrite IH, analyzeEntry_priceHistory, <- app_assoc. f_equal.
    cbn [omap list_omap]. destruct (priceEntryOf url entry); reflexivity.
Qed.

Lemma newestFirst_head recent rest :
  newestFirst (recent :: rest) -> latestRecord (recent :: rest) recent.
Proof.
  intros Hsorted. apply StronglySorted_inv in Hsorted as [_ Hhead].
  rewrite Forall_forall in Hhead. split; [left|].
  intros x Hx. apply elem_of_cons in Hx as [-> | Hx]; [lia | auto].
Qed.

Lemma strictlyNewestFirst_latest recent rest r :
  strictlyNewestFirst (recent :: rest) -> latestRecord (recent :: rest) r -> r = recent.
Proof.
  intros Hsorted [Hin Hmax]. apply StronglySorted_inv in Hsorted as [_ Hhead].
  rewrite Forall_forall in Hhead.
  apply elem_of_cons in Hin as [-> | Hin]; [reflexivity|].
  pose proof (Hhead r Hin). pose proof (Hmax recent ltac:(left)). lia.
Qed.

(** The replay of a ledger listed newest first gives a price history
    listed newest first. *)
Lemma replayed_prices_newest_first url logs :
  ledgerNewestFirst logs ->
  newestFirst (priceHistoryOf url (analyzeHistoricalData logs ∅)).
Proof.
  intros Hsorted. rewrite analyzeHistoricalData_priceHistory.
  unfold priceHistoryOf at 1. rewrite lookup_empty. cbn [default emptyStats priceHistory app].
  induction Hsorted as [|entry logs Hlogs IH Hentry]; cbn [omap list_omap]; [constructor|].
  fold (omap (priceEntryOf url) logs).
  destruct (priceEntryOf url entry) as [record|] eqn:Hrecord; [|exact IH].
  constructor; [exact IH|].
  rewrite Forall_forall in Hentry. apply Forall_forall. intros x Hx.
  apply list_elem_of_omap in Hx as (later & Hlater & Hx).
  specialize (Hentry later Hlater).
  unfold priceEntryOf in Hrecord, Hx.
  destruct (hasError entry); [discriminate|].
  destruct (String.eqb (ch_url entry) url); [|discriminate].
  destruct (ch_minPrice entry), (ch_basePrice entry); try discriminate.
  destruct (hasError later); [discriminate|].
  destruct (String.eqb (ch_url later) url); [|discriminate].
  destruct (ch_minPrice later), (ch_basePrice later); try discriminate.
  injection Hrecord as <-. injection Hx as <-. exact Hentry.
Qed.

(** C1 (amended): on a property whose statistics hold a base-price record,
    the min price returned is at most round(0.8 * B), B being the
    after-value of the first record of [priceHistory]; the clamp is applied
    last, to the price that the chosen percentage gives.  The first record
    is one of the latest date when the history is listed newest first, as
    the replay of a ledger listed newest first gives it, and the only one
    when the dates decrease strictly. *)
Theorem min_price_floor :
  forall now propertyUrl currentPrice currentOccupancy e stats recent rest,
    propertyStats e !! propertyUrl = Some stats ->
    priceHistory stats = recent :: rest ->
    let B := after (pe_basePrice recent) in
    let price :=
      fst (calculateAdjustedPrice now propertyUrl currentPrice currentOccupancy "min" e) in
    (price <= Math_round ((8 # 10) * B))%Q
    /\ (exists p oscillated,
          plannedAdjustment now propertyUrl currentOccupancy "min" e = Some (p, oscillated)
          /\ price = if Qgtb (applyPercentage currentPrice p) (Math_round ((8 # 10) * B))
                     then Math_round ((8 # 10) * B)
                     else applyPercentage currentPrice p)
    /\ (newestFirst (priceHistory stats) -> latestRecord (priceHistory stats) recent)
    /\ (strictlyNewestFirst (priceHistory stats) ->
        forall r, latestRecord (priceHistory stats) r ->
          (price <= Math_round ((8 # 10) * after (pe_basePrice r)))%Q)
    /\ (forall logs, ledgerNewestFirst logs ->
          propertyStats e = analyzeHistoricalData logs ∅ ->
          newestFirst (priceHistory stats)).
Proof.
  intros now url cp occ e stats recent rest Hstats Hprices B price.
  destruct (plannedAdjustment_known now url occ "min" e stats Hstats) as (p & osc & Hplan).
  destruct (calculateAdjustedPrice_known now url cp occ "min" e stats p osc Hstats Hplan)
    as (recorded & Hrec & _ & Hcall).
  assert (Hround : Math_round ((8 # 10) * B) = minAllowedPrice recent).
  { unfold minAllowedPrice. apply Math_round_comp. subst B. ring. }
  assert (Hfloor : (price <= Math_round ((8 # 10) * B))%Q).
  { subst price. rewrite Hcall, Hround. cbn [fst].
    eapply floorMinPrice_le; [exact Hrec | exact Hprices]. }
  split; [exact Hfloor|]. split; [|split; [|split]].
  - subst price. rewrite Hcall, Hround. cbn [fst].
    exists p, osc. split; [exact Hplan|].
    unfold floorMinPrice. cbn [String.eqb Ascii.eqb Bool.eqb andb].
    rewrite Hrec. cbn [statsAfter priceHistory]. rewrite Hprices. reflexivity.
  - rewrite Hprices. apply newestFirst_head.
  - rewrite Hprices. intros Hstrict r Hlatest.
    rewrite (strictlyNewestFirst_latest recent rest r Hstrict Hlatest). exact Hfloor.
  - intros logs Hsorted Hreplay.
    pose proof (replayed_prices_newest_first url logs Hsorted) as Hnewest.
    unfold priceHistoryOf in Hnewest. rewrite <- Hreplay, Hstats in Hnewest. exact Hnewest.
Qed.

Lemma min_price_floor_witness :
  (fst (calculateAdjustedPrice sampleNow "listing-1" 150 steadyOccupancy "min" sampleEngine)
   <= Math_round ((8 # 10) * 120))%Q
  /\ latestRecord (priceHistory sampleStats)
       (mkPriceEntry 19000 (mkPricePair 100 100) (mkPricePair 120 120)).
Proof.
  destruct (min_price_floor sampleNow "listing-1" 150 steadyOccupancy sampleEngine
              sampleStats
              (mkPriceEntry 19000 (mkPricePair 100 100) (mkPricePair 120 120)) [])
    as (Hfloor & _ & Hlatest & _ & _).
  - reflexivity.
  - reflexivity.
  - split; [exact Hfloor|]. apply Hlatest. repeat constructor.
Defined.

(** C1, as first stated, fails when the ledger lists its entries oldest
    first: the first record of the price history is then the oldest one.
    With a base price of 200 on day 19000 and of 100 on day 19005, a min
    price of 150 comes back as 152, above round(0.8 * 100) = 80, the floor
    used being round(0.8 * 200) = 160. *)
Lemma floor_misses_latest_on_chronological_ledger :
  priceHistoryOf "listing-1" (propertyStats chronologicalEngine)
  = [mkPriceEntry 19000 (mkPricePair 100 100) (mkPricePair 200 200);
     mkPriceEntry 19005 (mkPricePair 100 100) (mkPricePair 100 100)]
  /\ latestRecord (priceHistoryOf "listing-1" (propertyStats chronologicalEngine))
       (mkPriceEntry 19005 (mkPricePair 100 100) (mkPricePair 100 100))
  /\ (fst (calculateAdjustedPrice sampleNow "listing-1" 150 steadyOccupancy "min"
             chronologicalEngine) == 152)%Q
  /\ (Math_round ((8 # 10) * 100) == 80)%Q
  /\ ~ floorAgainstLatest chronologicalEngine "listing-1".
Proof.
  assert (Hprices : priceHistoryOf "listing-1" (propertyStats chronologicalEngine)
                    = [mkPriceEntry 19000 (mkPricePair 100 100) (mkPricePair 200 200);
                       mkPriceEntry 19005 (mkPricePair 100 100) (mkPricePair 100 100)])
    by (vm_compute; reflexivity).
  assert (Hlatest : latestRecord (priceHistoryOf "listing-1" (propertyStats chronologicalEngine))
                      (mkPriceEntry 19005 (mkPricePair 100 100) (mkPricePair 100 100))).
  { rewrite Hprices. split; [right; left|].
    intros x Hx. repeat (apply elem_of_cons in Hx as [-> | Hx]; [cbn; lia|]).
    apply elem_of_nil in Hx. contradiction. }
  split; [exact Hprices|]. split; [exact Hlatest|].
  split; [vm_compute; reflexivity|]. split; [vm_compute; reflexivity|].
  intros H.
  assert (Hstats : exists stats,
             propertyStats chronologicalEngine !! "listing-1" = Some stats)
    by (eexists; vm_compute; reflexivity).
  destruct Hstats as (stats & Hlookup).
  unfold priceHistoryOf in Hlatest. rewrite Hlookup in Hlatest. cbn [default] in Hlatest.
  specialize (H sampleNow 150%Q steadyOccupancy stats _ Hlookup Hlatest).
  vm_compute in H. apply H. reflexivity.
Qed.

Lemma find_updateFirst {A} (f : A -> bool) (g : A -> A) (l : list A) x :
  find f l = Some x -> f (g x) = true -> find f (updateFirst f g l) = Some (g x).
Proof.
  intros Hfind Hg. induction l as [|y l IH]; [discriminate|].
  simpl in *. destruct (f y) eqn:Hy.
  - injection Hfind as ->. simpl. rewrite Hg. reflexivity.
  - simpl. rewrite Hy. auto.
Qed.

Lemma find_app_last {A} (f : A -> bool) (l : list A) y :
  find f l = None -> f y = true -> find f (l ++ [y]) = Some y.
Proof.
  intros Hnone Hy. induction l as [|z l IH]; simpl in *; [rewrite Hy; reflexivity|].
  destruct (f z); [discriminate | auto].
Qed.

(** After the upsert, the run's entry of the property carries the pair. *)
Lemma recordChange_min now propertyUrl currentOccupancy pair changes0 :
  exists change,
    find (fun c => String.eqb (ch_url c) propertyUrl)
      (recordChange now propertyUrl currentOccupancy "min" pair changes0) = Some change
    /\ ch_minPrice change = Some pair.
Proof.
  unfold recordChange.
  destruct (find (fun c => String.eqb (ch_url c) propertyUrl) changes0) as [c0|] eqn:Hfind.
  - exists (setPrice "min" pair c0). split; [|reflexivity].
    apply find_updateFirst; [exact Hfind|].
    apply find_some in Hfind as [_ Hurl]. exact Hurl.
  - exists (setPrice "min" pair
              (mkChange propertyUrl (todayOf now) (Some currentOccupancy) None None None)).
    split; [|reflexivity].
    apply find_app_last; [exact Hfind|]. cbn. apply String.eqb_refl.
Qed.

(** C9: when the floor clamp fires, the adjustment pushed on the history
    and the change upserted into the run's buffer hold the percentage and
    the price of before the clamp, so the recorded after-value differs from
    the price returned. *)
Theorem clamp_leaves_records_unclamped :
  forall now propertyUrl currentPrice currentOccupancy e stats recent rest p oscillated,
    propertyStats e !! propertyUrl = Some stats ->
    priceHistory stats = recent :: rest ->
    plannedAdjustment now propertyUrl currentOccupancy "min" e = Some (p, oscillated) ->
    (minAllowedPrice recent < applyPercentage currentPrice p)%Q ->
    let result := calculateAdjustedPrice now propertyUrl currentPrice currentOccupancy "min" e in
    fst result = minAllowedPrice recent
    /\ (exists stats',
          propertyStats (snd result) !! propertyUrl = Some stats'
          /\ adjustmentHistory stats'
             = (adjustmentHistory stats
                ++ [mkAdjustment (todayOf now)
                      (getPropertyStrategy now propertyUrl currentOccupancy e)
                      (Some p) p 0%Q])%list)
    /\ (exists change,
          find (fun c => String.eqb (ch_url c) propertyUrl) (currentChanges (snd result))
            = Some change
          /\ ch_minPrice change = Some (mkPricePair currentPrice (applyPercentage currentPrice p))
          /\ ~ (applyPercentage currentPrice p == fst result)%Q).
Proof.
  intros now url cp occ e stats recent rest p osc Hstats Hprices Hplan Hfire result.
  destruct (calculateAdjustedPrice_known now url cp occ "min" e stats p osc Hstats Hplan)
    as (recorded & Hrec & _ & Hcall).
  assert (Hprice : fst result = minAllowedPrice recent).
  { subst result. rewrite Hcall. cbn [fst]. unfold floorMinPrice.
    cbn [String.eqb Ascii.eqb Bool.eqb andb].
    rewrite Hrec. cbn [statsAfter priceHistory]. rewrite Hprices.
    apply Qgtb_gt in Hfire. rewrite Hfire. reflexivity. }
  split; [exact Hprice|]. split.
  - subst result. rewrite Hcall. cbn [snd propertyStats].
    eexists. split; [exact Hrec|]. reflexivity.
  - destruct (recordChange_min now url occ (mkPricePair cp (applyPercentage cp p))
                (currentChanges e)) as (change & Hfind & Hmin).
    exists change. subst result. rewrite Hcall in *. cbn [snd currentChanges fst] in *.
    repeat split; [exact Hfind | exact Hmin |].
    rewrite Hprice. intros Heq. rewrite Heq in Hfire. revert Hfire. apply Qlt_irrefl.
Qed.

Lemma clamp_leaves_records_unclamped_witness :
  fst (calculateAdjustedPrice sampleNow "listing-1" 150 steadyOccupancy "min" sampleEngine)
  = minAllowedPrice (mkPriceEntry 19000 (mkPricePair 100 100) (mkPricePair 120 120)).
Proof.
  apply (clamp_leaves_records_unclamped sampleNow "listing-1" 150 steadyOccupancy
           sampleEngine sampleStats
           (mkPriceEntry 19000 (mkPricePair 100 100) (mkPricePair 120 120)) [] 1 true).
  - reflexivity.
  - reflexivity.
  - vm_compute. reflexivity.
  - vm_compute. reflexivity.
Defined.

(** C10: a call on a property without statistics returns the price that the
    chosen percentage gives, without the floor clamp, and leaves the engine
    as it was: no adjustment, no change of the run and no oscillation
    direction is stored. *)
Theorem cold_start_leaves_engine_unchanged :
  forall now propertyUrl currentPrice currentOccupancy priceType e,
    propertyStats e !! propertyUrl = None ->
    calculateAdjustedPrice now propertyUrl currentPrice currentOccupancy priceType e
    = (match plannedAdjustment now propertyUrl currentOccupancy priceType e with
       | Some (p, _) => applyPercentage currentPrice p
       | None => currentPrice
       end, e).
Proof.
  intros now url cp occ pt e Hcold. unfold calculateAdjustedPrice.
  destruct (plannedAdjustment now url occ pt e) as [[p osc]|]; [|reflexivity].
  cbv zeta. unfold storeOscillation.
  assert (Hsame : (if osc
                   then alter (fun s => mkStats (st_url s) (occupancyHistory s) (priceHistory s)
                                 (adjustmentHistory s) (Some p) (lastUpdate s))
                          url (propertyStats e)
                   else propertyStats e) = propertyStats e).
  { destruct osc; [apply alter_id'; exact Hcold | reflexivity]. }
  rewrite Hsame, Hcold. cbn [propertyStats].
  unfold floorMinPrice. rewrite Hcold.
  destruct e as [cfg stats chs]. cbn.
  destruct (String.eqb pt "min"); reflexivity.
Qed.

Lemma cold_start_leaves_engine_unchanged_witness :
  calculateAdjustedPrice sampleNow "listing-9" 150 fullOccupancy "min" coldEngine
  = (155%Q, coldEngine).
Proof.
  apply (cold_start_leaves_engine_unchanged sampleNow "listing-9" 150 fullOccupancy "min"
           coldEngine).
  reflexivity.
Defined.

(** *** Oscillation under hold *)





(** *** The seven-day cap on increases *)

Lemma addTrailing_ge now priceType acc a : (acc <= addTrailing now priceType acc a)%Q.
Proof.
  unfold addTrailing.
  destruct (sinceSevenDaysAgo now (adj_date a)); cbn [andb]; [|lra].
  destruct (Qgtb (changeToUse priceType a) 0) eqn:H; order_facts; lra.
Qed.

Lemma fold_addTrailing_ge now priceType history : forall acc,
  (acc <= fold_left (addTrailing now priceType) history acc)%Q.
Proof.
  induction history as [|a history IH]; intros acc; simpl; [lra|].
  eapply Qle_trans; [apply addTrailing_ge | apply IH].
Qed.

Lemma trailingIncrease_nonneg now priceType history :
  (0 <= trailingIncrease now priceType history)%Q.
Proof. apply fold_addTrailing_ge. Qed.



(** A positive capped increase fits under the cap. *)
Lemma capIncrease_fits s m :
  (0 < capIncrease s m)%Q -> (s + capIncrease s m <= 5)%Q.
Proof.
  unfold capIncrease.
  destruct (Qgtb (s + m) 5) eqn:Hover; order_facts; [|intros _; lra].
  destruct (Qltb (Qmax 0 (5 - s)) 1) eqn:Hsmall; order_facts; [intros H; lra|].
  intros _. destruct (Q.max_spec 0 (5 - s)) as [[_ Hmax] | [_ Hmax]];
    rewrite Hmax in *; lra.
Qed.





(** With a decrease percentage that is not negative, no branch of the
    [switch] settles on a positive percentage that breaks the cap. *)
Lemma adjustmentPercentageOf_fits strategy c thresholds o7 o30 w dayOfWeek s last p osc :
  (0 <= decrease_percentage c)%Q ->
  adjustmentPercentageOf strategy c thresholds o7 o30 w dayOfWeek s last = Some (p, osc) ->
  (0 < p)%Q -> (s + p <= 5)%Q.
Proof.
  intros Hdec. unfold adjustmentPercentageOf, nearSevenDayLimit.
  destruct (String.eqb strategy "increase").
  { intros [= <- _]. apply capIncrease_fits. }
  destruct (String.eqb strategy "decrease").
  { repeat match goal with |- context [if ?b then _ else _] => destruct b end;
      intros [= <- _] Hpos; lra. }
  destruct (String.eqb strategy "hold"); [|discriminate].
  destruct (Qgeb w (low thresholds) && Qle_bool w (high thresholds)).
  { destruct (Qgtb (oscillation dayOfWeek (hold_oscillationPercentage c) last) 0) eqn:Hup;
      cbn [andb].
    - destruct (Qgtb (s + oscillation dayOfWeek (hold_oscillationPercentage c) last)
                  (45 # 10)) eqn:Hnear; intros [= <- _] Hpos; order_facts; lra.
    - intros [= <- _] Hpos. order_facts. lra. }
  destruct (Qltb w (low thresholds)).
  { intros [= <- _] Hpos. lra. }
  destruct (Qgtb (s + increase_percentage c * (7 # 10)) 5) eqn:Hover;
    intros [= <- _] Hpos; order_facts; [|lra].
  destruct (Q.max_spec 0 (5 - s)) as [[_ Hmax] | [_ Hmax]]; rewrite Hmax in *; lra.
Qed.


Section RateCap.

Variables (propertyUrl priceType : string).
Hypothesis priceType_known : priceType = "min" \/ priceType = "base".

(** What is counted for each call, under one configuration. *)
Variable counted : Outcome -> Q.
Variable cfg : Config.

Hypothesis counted_fits :
  forall e, config e = cfg -> countedFits propertyUrl priceType counted e.



End RateCap.









(** ** Change ledger writers *)

Lemma writeFile_ok path content fs :
  path ∉ unwritable fs ->
  writeFile path content fs = Some (mkFs (<[path := content]> (files fs)) (unwritable fs)).
Proof. intros H. unfold writeFile. rewrite decide_False by exact H. reflexivity. Qed.

Lemma writeFile_fails path content fs :
  path ∈ unwritable fs -> writeFile path content fs = None.
Proof. intros H. unfold writeFile. rewrite decide_True by exact H. reflexivity. Qed.

(** [saveChangesToLog] keeps the newest 1000 entries: on a ledger of the
    single-object shape (or a missing or unreadable one) that can be
    written, the file holds the first 1000 of the new changes followed by
    the old ones. *)
Lemma saveChangesToLog_trims today logFile newChanges fs old :
  changesOnDisk logFile fs = Some old ->
  logFile ∉ unwritable fs ->
  exists kept,
    files (saveChangesToLog today logFile newChanges fs) !! logFile
    = Some (JsonText (LedgerObject (mkRun (Some today) (Some kept))))
    /\ kept = take maxHistoryEntries (newChanges ++ old)
    /\ (length kept <= maxHistoryEntries)%nat.
Proof.
  intros Hdisk Hok. exists (take maxHistoryEntries (newChanges ++ old)).
  split; [|split; [reflexivity | rewrite length_take; lia]].
  unfold saveChangesToLog, changesOnDisk in *.
  assert (Hkept : forall merged : list ChangeRecord,
             (if (maxHistoryEntries <? length merged)%nat
              then take maxHistoryEntries merged else merged)
             = take maxHistoryEntries merged).
  { intros merged. destruct (maxHistoryEntries <? length merged)%nat eqn:Hlen;
      [reflexivity|]. apply Nat.ltb_ge in Hlen. symmetry. apply take_ge. exact Hlen. }
  destruct (files fs !! logFile) as [[[run| |]|]|];
    try discriminate; injection Hdisk as <-; cbv zeta; cbn [freshRun changes default];
    rewrite Hkept, writeFile_ok by exact Hok; cbn [files]; apply lookup_insert_eq.
Qed.

(** Persisting again and again through [saveChangesToLog] never holds more
    than 1000 entries. *)
Lemma saveChangesToLog_bounded today logFile newChanges fs old :
  changesOnDisk logFile fs = Some old ->
  logFile ∉ unwritable fs ->
  exists kept,
    changesOnDisk logFile (saveChangesToLog today logFile newChanges fs) = Some kept
    /\ (length kept <= maxHistoryEntries)%nat.
Proof.
  intros Hdisk Hok.
  destruct (saveChangesToLog_trims today logFile newChanges fs old Hdisk Hok)
    as (kept & Hfile & _ & Hlen).
  exists kept. unfold changesOnDisk. rewrite Hfile. split; [reflexivity | exact Hlen].
Qed.

(** When the ledger cannot be written, [saveChangesToLog] writes the dated
    backup, holding the changes of the current run only. *)
Lemma saveChangesToLog_backup today logFile newChanges fs :
  logFile ∈ unwritable fs ->
  (logFile ++ ".backup-" ++ today)%string ∉ unwritable fs ->
  files (saveChangesToLog today logFile newChanges fs)
    !! (logFile ++ ".backup-" ++ today)%string
  = Some (JsonText (LedgerObject (mkRun (Some today) (Some newChanges)))).
Proof.
  intros Hfail Hok. unfold saveChangesToLog.
  assert (Hattempt : forall content, writeFile logFile content fs = None)
    by (intros content; apply writeFile_fails; exact Hfail).
  destruct (files fs !! logFile) as [[[run| |]|]|]; cbv zeta;
    rewrite ?Hattempt, writeFile_ok by exact Hok; cbn [files]; apply lookup_insert_eq.
Qed.

(** [saveChanges] merges without trimming: the file holds every change of
    the run followed by every old one. *)
Lemma saveChanges_keeps_all today e fs path run :
  logFile (config e) = Some path ->
  path <> "" ->
  currentChanges e <> [] ->
  files fs !! path = Some (JsonText (LedgerObject run)) ->
  path ∉ unwritable fs ->
  files (snd (saveChanges today e fs)) !! path
  = Some (JsonText (LedgerObject
                      (mkRun (Some today)
                         (Some (currentChanges e ++ default [] (changes run))%list)))).
Proof.
  intros Hpath Hne Hpending Hfile Hok. unfold saveChanges. rewrite Hpath.
  apply String.eqb_neq in Hne. rewrite Hne.
  destruct (currentChanges e) as [|c cs] eqn:Hcur; [congruence|].
  cbn [length Nat.eqb]. rewrite Hfile, writeFile_ok by exact Hok.
  cbn [snd files]. apply lookup_insert_eq.
Qed.

(** When the ledger cannot be written, [saveChanges] writes nothing at all. *)
Lemma saveChanges_failure today e fs path :
  logFile (config e) = Some path ->
  path ∈ unwritable fs ->
  saveChanges today e fs = (e, fs).
Proof.
  intros Hpath Hfail. unfold saveChanges. rewrite Hpath.
  destruct (String.eqb path ""); [reflexivity|].
  destruct (length (currentChanges e) =? 0)%nat; [reflexivity|].
  destruct (files fs !! path) as [[[run|[|run runs]|]|]|]; try reflexivity;
    rewrite writeFile_fails by exact Hfail; reflexivity.
Qed.

(** C5 on [saveChanges]: with 1000 entries on disk and one change in the
    run, the ledger written holds 1001 entries. *)
Theorem saveChanges_exceeds_limit :
  exists kept,
    files (snd (saveChanges "2022-01-20" pendingEngine fullDisk)) !! "pricelabs_changes.json"
    = Some (JsonText (LedgerObject (mkRun (Some "2022-01-20") (Some kept))))
    /\ length kept = 1001%nat
    /\ (maxHistoryEntries < length kept)%nat.
Proof.
  eexists. split; [|split].
  - apply (saveChanges_keeps_all "2022-01-20" pendingEngine fullDisk "pricelabs_changes.json"
             (mkRun (Some "2022-01-10")
                (Some (replicate maxHistoryEntries (sampleChange 19000)))));
      try reflexivity; try discriminate; cbn; apply not_elem_of_empty.
  - reflexivity.
  - apply Nat.ltb_lt. vm_compute. reflexivity.
Qed.

(** C8 on [saveChanges]: when the write of the ledger fails, the engine and
    the files are left as they were, and no backup file exists. *)
Theorem saveChanges_failure_no_backup :
  saveChanges "2022-01-20" pendingEngine lockedDisk = (pendingEngine, lockedDisk)
  /\ files (snd (saveChanges "2022-01-20" pendingEngine lockedDisk))
       !! "pricelabs_changes.json.backup-2022-01-20" = None
  /\ files (saveChangesToLog "2022-01-20" "pricelabs_changes.json"
              (currentChanges pendingEngine) lockedDisk)
       !! "pricelabs_changes.json.backup-2022-01-20"
     = Some (JsonText (LedgerObject (mkRun (Some "2022-01-20")
                                       (Some (currentChanges pendingEngine))))).
Proof.
  assert (Hlocked : "pricelabs_changes.json" ∈ unwritable lockedDisk)
    by (cbn; apply elem_of_singleton; reflexivity).
  rewrite (saveChanges_failure "2022-01-20" pendingEngine lockedDisk
             "pricelabs_changes.json" eq_refl Hlocked).
  split; [reflexivity|]. split.
  - cbn [snd lockedDisk files]. apply lookup_singleton_ne. discriminate.
  - apply (saveChangesToLog_backup "2022-01-20" "pricelabs_changes.json"); [exact Hlocked|].
    cbn. intros H. apply elem_of_singleton in H. discriminate H.
Qed.

(** * Further properties *)

(** ** Reading the occupancy cells *)

(** X1: a cell text read by [percentToDecimal] and then normalized by the
    engine gives what the engine makes of the text itself, as long as the
    percentage written does not exceed 100; beyond 100 the value is divided
    by 100 a second time. *)
Theorem percentToDecimal_then_normalize :
  forall text,
    (match regexNumericToken text with
     | Some tok => (parseFloatToken tok <= 100)%Q
     | None => True
     end ->
     parseOccupancyRate (percentToDecimal text) = parseOccupancyRate (JsString text))
    /\ (forall tok, regexNumericToken text = Some tok ->
          (100 < parseFloatToken tok)%Q ->
          parseOccupancyRate (percentToDecimal text)
          = (parseFloatToken tok / 100 / 100)%Q).
Proof.
  intros text. unfold percentToDecimal, parseOccupancyRate.
  assert (Hmissing : String.eqb text "" || String.eqb text "N/A"
                     = (String.eqb text "N/A" || String.eqb text "")) by apply orb_comm.
  split.
  - intros Hrange. rewrite Hmissing.
    destruct (String.eqb text "N/A" || String.eqb text ""); [reflexivity|].
    destruct (regexNumericToken text) as [tok|]; [|reflexivity].
    assert (Hle : Qgtb (parseFloatToken tok / 100) 1 = false)
      by (apply Qgtb_le; percent_lra).
    rewrite Hle. reflexivity.
  - intros tok Htok Hbig.
    assert (Hdigit : String.eqb text "" || String.eqb text "N/A" = false).
    { destruct text as [|c text']; [discriminate Htok|].
      destruct (String.eqb_spec (String c text') "N/A") as [E|]; [|reflexivity].
      rewrite E in Htok. discriminate Htok. }
    rewrite Hdigit, Htok.
    assert (Hgt : Qgtb (parseFloatToken tok / 100) 1 = true)
      by (apply Qgtb_gt; percent_lra).
    rewrite Hgt. reflexivity.
Qed.

Lemma percentToDecimal_then_normalize_witness :
  parseOccupancyRate (percentToDecimal "85%") = parseOccupancyRate (JsString "85%")
  /\ parseOccupancyRate (percentToDecimal "150%") = (150 / 100 / 100)%Q.
Proof.
  split.
  - apply (proj1 (percentToDecimal_then_normalize "85%")). vm_compute. discriminate.
  - apply (proj2 (percentToDecimal_then_normalize "150%") (["1"; "5"; "0"]%char, [])).
    + reflexivity.
    + vm_compute. reflexivity.
Defined.

(** ** Retrying *)

(** The loop reaches the first call that does not fail with a value the
    catch block can print, and ends there. *)
Lemma retryLoop_stops {A E} (fn : nat -> Thrown E + A) retryDelay :
  forall failures remaining attempt lastError sleptSoFar,
    (failures < remaining)%nat ->
    (forall i, (i < failures)%nat ->
       exists error, fn (attempt + i)%nat = inl (ThrownValue error)) ->
    (forall error, fn (attempt + failures)%nat <> inl (ThrownValue error)) ->
    retryLoop fn retryDelay remaining attempt lastError sleptSoFar
    = mkRetryRun
        (match fn (attempt + failures)%nat with
         | inr value => Fulfilled value
         | inl _ => RejectedTypeError
         end)
        (attempt + failures)
        (sleptSoFar + Z.of_nat failures * retryDelay).
Proof.
  induction failures as [|failures IH];
    intros remaining attempt lastError sleptSoFar Hlt Hfail Hstop.
  - destruct remaining as [|rest]; [lia|]. cbn [retryLoop].
    rewrite Nat.add_0_r in *.
    destruct (fn attempt) as [[| |error]|value];
      [| |exfalso; exact (Hstop error eq_refl)|]; f_equal; lia.
  - destruct remaining as [|rest]; [lia|]. cbn [retryLoop].
    destruct (Hfail 0%nat) as [error Herr]; [lia|].
    rewrite Nat.add_0_r in Herr. rewrite Herr.
    assert (Hrest : (0 <? rest)%nat = true) by (apply Nat.ltb_lt; lia).
    rewrite Hrest.
    replace (attempt + S failures)%nat with (S attempt + failures)%nat in * by lia.
    rewrite (IH rest (S attempt) (Some error) (sleptSoFar + retryDelay)).
    + f_equal. lia.
    + lia.
    + intros i Hi. destruct (Hfail (S i)) as [err Herr']; [lia|].
      exists err. rewrite <- Herr'. f_equal. lia.
    + exact Hstop.
Qed.

(** X2: when the first call of [fn] that succeeds is call number k, with k
    at most [maxRetries], and each call before it threw a value whose
    message the catch block can print, [retry] returns the value of call k
    after exactly k calls, having slept [retryDelay] after each of the k-1
    failures. *)
Theorem retry_returns_first_success :
  forall (A E : Type) (fn : nat -> Thrown E + A) maxRetries retryDelay k value,
    (1 <= k <= maxRetries)%nat ->
    (forall i, (1 <= i < k)%nat -> exists error, fn i = inl (ThrownValue error)) ->
    fn k = inr value ->
    retry fn maxRetries retryDelay
    = mkRetryRun (Fulfilled value) k (Z.of_nat (k - 1) * retryDelay).
Proof.
  intros A E fn maxRetries retryDelay k value Hk Hfail Hok. unfold retry.
  assert (Hcall : (1 + (k - 1))%nat = k) by lia.
  rewrite (retryLoop_stops fn retryDelay (k - 1)).
  - rewrite Hcall, Hok. reflexivity.
  - lia.
  - intros i Hi. apply Hfail. lia.
  - rewrite Hcall, Hok. discriminate.
Qed.

Lemma retry_returns_first_success_witness :
  retry (fun n => if (n <? 3)%nat then inl (ThrownValue "timeout") else inr 42%nat) 3 1000
  = mkRetryRun (Fulfilled 42%nat) 3 2000.
Proof.
  apply (retry_returns_first_success nat string
           (fun n => if (n <? 3)%nat then inl (ThrownValue "timeout") else inr 42%nat)
           3 1000 3 42%nat).
  - lia.
  - intros i Hi. exists "timeout".
    destruct (Nat.ltb_spec i 3); [reflexivity | lia].
  - reflexivity.
Defined.

Lemma retryLoop_all_fail {A E} (fn : nat -> Thrown E + A) retryDelay (errors : nat -> E) :
  forall remaining attempt lastError sleptSoFar,
    (forall i, (i < remaining)%nat ->
       fn (attempt + i)%nat = inl (ThrownValue (errors (attempt + i)%nat))) ->
    retryLoop fn retryDelay remaining attempt lastError sleptSoFar
    = mkRetryRun
        (Rejected (match remaining with
                   | O => lastError
                   | S rest => Some (errors (attempt + rest)%nat)
                   end))
        (attempt + remaining - 1)
        (sleptSoFar + Z.of_nat (remaining - 1) * retryDelay).
Proof.
  induction remaining as [|rest IH]; intros attempt lastError sleptSoFar Hfail.
  - cbn. f_equal; lia.
  - cbn [retryLoop]. rewrite <- (Nat.add_0_r attempt) at 1.
    rewrite (Hfail 0%nat) by lia. rewrite Nat.add_0_r.
    rewrite IH.
    + destruct rest as [|rest'].
      * cbn. rewrite Nat.add_0_r. f_equal; lia.
      * cbn [Nat.ltb Nat.leb].
        replace (S attempt + rest')%nat with (attempt + S rest')%nat by lia.
        replace (S (S rest') - 1)%nat with (S rest') by lia.
        replace (S rest' - 1)%nat with rest' by lia.
        rewrite Nat2Z.inj_succ. f_equal; [lia | ring].
    + intros i Hi. replace (S attempt + i)%nat with (attempt + S i)%nat by lia.
      apply Hfail. lia.
Qed.

(** X3: how [retry] fails.  When every one of the [maxRetries] calls throws
    a value whose message the catch block can print, [retry] throws the
    value of the last call, after [maxRetries] calls and a sleep after each
    failure but the last; with [maxRetries] at 0 the function is never
    called and what is thrown is [undefined].  When call number k, at most
    [maxRetries], is the first not to do so and throws [null] or
    [undefined], [retry] gives up there: it rejects with the [TypeError] of
    the catch block after k calls and k-1 sleeps, whatever [maxRetries]
    allows. *)
Theorem retry_throws_last_error :
  forall (A E : Type) (fn : nat -> Thrown E + A) maxRetries retryDelay,
    (forall errors : nat -> E,
       (forall i, (1 <= i <= maxRetries)%nat -> fn i = inl (ThrownValue (errors i))) ->
       retry fn maxRetries retryDelay
       = mkRetryRun
           (Rejected (match maxRetries with
                      | O => None
                      | S _ => Some (errors maxRetries)
                      end))
           maxRetries
           (Z.of_nat (maxRetries - 1) * retryDelay))
    /\ (forall k thrown,
          (1 <= k <= maxRetries)%nat ->
          (forall i, (1 <= i < k)%nat -> exists error, fn i = inl (ThrownValue error)) ->
          fn k = inl thrown ->
          nullish thrown = true ->
          retry fn maxRetries retryDelay
          = mkRetryRun RejectedTypeError k (Z.of_nat (k - 1) * retryDelay)).
Proof.
  intros A E fn maxRetries retryDelay. split.
  - intros errors Hfail. unfold retry.
    rewrite (retryLoop_all_fail fn retryDelay errors).
    + destruct maxRetries as [|rest]; f_equal; try lia.
    + intros i Hi. apply Hfail. lia.
  - intros k thrown Hk Hfail Hthrown Hnull. unfold retry.
    assert (Hcall : (1 + (k - 1))%nat = k) by lia.
    rewrite (retryLoop_stops fn retryDelay (k - 1)).
    + rewrite Hcall, Hthrown. reflexivity.
    + lia.
    + intros i Hi. apply Hfail. lia.
    + rewrite Hcall, Hthrown. intros error Heq. injection Heq as ->. discriminate Hnull.
Qed.

Lemma retry_throws_last_error_witness :
  retry (fun n => inl (ThrownValue n) : Thrown nat + bool) 3 1000
  = mkRetryRun (Rejected (Some 3%nat)) 3 2000
  /\ retry (fun n => inl ThrownUndefined : Thrown nat + bool) 3 1000
     = mkRetryRun RejectedTypeError 1 0
  /\ retry (fun n => inl (ThrownValue n) : Thrown nat + bool) 0 1000
     = mkRetryRun (Rejected None) 0 0.
Proof.
  split; [|split].
  - apply (proj1 (retry_throws_last_error bool nat (fun n => inl (ThrownValue n)) 3 1000)
             (fun n => n)).
    intros i _. reflexivity.
  - apply (proj2 (retry_throws_last_error bool nat (fun n => inl ThrownUndefined) 3 1000)
             1%nat ThrownUndefined).
    + lia.
    + intros i Hi. lia.
    + reflexivity.
    + reflexivity.
  - apply (proj1 (retry_throws_last_error bool nat (fun n => inl (ThrownValue n)) 0 1000)
             (fun n => n)).
    intros i _. reflexivity.
Defined.

(** ** Trend estimator *)

Lemma insertByDateDesc_perm x l : insertByDateDesc x l ≡ₚ x :: l.
Proof.
  induction l as [|y l IH]; cbn [insertByDateDesc]; [reflexivity|].
  destruct (oe_date y <=? oe_date x); [reflexivity|].
  rewrite IH. apply Permutation_swap.
Qed.

Lemma sortByDateDesc_perm l : sortByDateDesc l ≡ₚ l.
Proof.
  induction l as [|x l IH]; cbn [sortByDateDesc fold_right]; [reflexivity|].
  fold (sortByDateDesc l). rewrite insertByDateDesc_perm, IH. reflexivity.
Qed.

Lemma insertByDateDesc_sorted x l :
  StronglySorted newer l -> StronglySorted newer (insertByDateDesc x l).
Proof.
  induction 1 as [|y l Hl IH Hy]; cbn [insertByDateDesc].
  - repeat constructor.
  - destruct (Z.leb_spec (oe_date y) (oe_date x)) as [Hle | Hgt].
    + constructor; [constructor; assumption|].
      constructor; [exact Hle|].
      eapply Forall_impl; [exact Hy|]. intros z Hz. unfold newer in *. lia.
    + constructor; [exact IH|].
      rewrite insertByDateDesc_perm. constructor; [unfold newer; lia | exact Hy].
Qed.

Lemma sortByDateDesc_sorted l : StronglySorted newer (sortByDateDesc l).
Proof.
  induction l as [|x l IH]; cbn [sortByDateDesc fold_right]; [constructor|].
  apply insertByDateDesc_sorted. exact IH.
Qed.

(** X4: with two entries or more, the trend is 100 times the 7-day
    occupancy of an entry of the latest date minus that of an entry of the
    latest date among the others, wherever the two stand in the history. *)
Theorem trend_reads_two_latest :
  forall history,
    (2 <= length history)%nat ->
    exists mostRecent previous older,
      history ≡ₚ mostRecent :: previous :: older
      /\ (forall x, x ∈ previous :: older -> oe_date x <= oe_date mostRecent)
      /\ (forall x, x ∈ older -> oe_date x <= oe_date previous)
      /\ calculateOccupancyTrend history
         = ((sevenDay mostRecent - sevenDay previous) * 100)%Q.
Proof.
  intros history Hlen.
  pose proof (sortByDateDesc_perm history) as Hperm.
  pose proof (sortByDateDesc_sorted history) as Hsorted.
  unfold calculateOccupancyTrend.
  destruct (sortByDateDesc history) as [|a [|b older]] eqn:Hsort.
  - apply Permutation_length in Hperm. cbn in Hperm. lia.
  - apply Permutation_length in Hperm. cbn in Hperm. lia.
  - exists a, b, older. split; [symmetry; exact Hperm|].
    apply StronglySorted_inv in Hsorted as [Htail Ha].
    apply StronglySorted_inv in Htail as [_ Hb].
    rewrite Forall_forall in Ha, Hb. repeat split; auto.
Qed.

Lemma trend_reads_two_latest_witness :
  exists mostRecent previous older,
    [mkOccEntry 19000 (5 # 10) 0 0; mkOccEntry 19002 (7 # 10) 0 0;
     mkOccEntry 19001 (6 # 10) 0 0]
    ≡ₚ mostRecent :: previous :: older
    /\ (forall x, x ∈ previous :: older -> oe_date x <= oe_date mostRecent)
    /\ (forall x, x ∈ older -> oe_date x <= oe_date previous)
    /\ calculateOccupancyTrend
         [mkOccEntry 19000 (5 # 10) 0 0; mkOccEntry 19002 (7 # 10) 0 0;
          mkOccEntry 19001 (6 # 10) 0 0]
       = ((sevenDay mostRecent - sevenDay previous) * 100)%Q.
Proof.
  apply (trend_reads_two_latest
           [mkOccEntry 19000 (5 # 10) 0 0; mkOccEntry 19002 (7 # 10) 0 0;
            mkOccEntry 19001 (6 # 10) 0 0]).
  cbn. lia.
Defined.

Lemma distinct_dates_strictly_sorted l :
  StronglySorted newer l -> NoDup (oe_date <$> l) ->
  StronglySorted (fun a b => oe_date b < oe_date a) l.
Proof.
  induction 1 as [|a l Hl IH Ha]; intros Hdistinct; [constructor|].
  rewrite fmap_cons in Hdistinct. apply NoDup_cons in Hdistinct as [Hfresh Hrest].
  constructor; [apply IH; exact Hrest|].
  rewrite Forall_forall in Ha |- *. intros x Hx.
  pose proof (Ha x Hx) as Hle. unfold newer in Hle.
  assert (oe_date x <> oe_date a).
  { intros Heq. apply Hfresh. rewrite <- Heq. apply list_elem_of_fmap. eauto. }
  lia.
Qed.

Lemma strictly_sorted_unique (l1 : list OccupancyEntry) : forall l2,
  StronglySorted (fun a b => oe_date b < oe_date a) l1 ->
  StronglySorted (fun a b => oe_date b < oe_date a) l2 ->
  l1 ≡ₚ l2 -> l1 = l2.
Proof.
  induction l1 as [|a t1 IH]; intros l2 H1 H2 Hperm.
  - apply Permutation_nil_l in Hperm. congruence.
  - destruct l2 as [|b t2]; [apply Permutation_nil_r in Hperm; discriminate|].
    apply StronglySorted_inv in H1 as [Ht1 Ha].
    apply StronglySorted_inv in H2 as [Ht2 Hb].
    rewrite Forall_forall in Ha, Hb.
    assert (Heq : a = b).
    { assert (Hain : a ∈ b :: t2) by (rewrite <- Hperm; left).
      assert (Hbin : b ∈ a :: t1) by (rewrite Hperm; left).
      apply elem_of_cons in Hain as [? | Hain]; [assumption|].
      apply elem_of_cons in Hbin as [? | Hbin]; [congruence|].
      pose proof (Ha b Hbin). pose proof (Hb a Hain). lia. }
    subst b. f_equal. apply IH; [assumption | assumption|].
    eapply Permutation_cons_inv. exact Hperm.
Qed.

(** X5: when no two entries of the history carry the same date, the trend
    does not depend on the order in which the ledger listed them. *)
Theorem trend_ignores_order :
  forall history reordered,
    NoDup (oe_date <$> history) ->
    history ≡ₚ reordered ->
    calculateOccupancyTrend reordered = calculateOccupancyTrend history.
Proof.
  intros history reordered Hdistinct Hperm. unfold calculateOccupancyTrend.
  assert (Hsame : sortByDateDesc reordered = sortByDateDesc history).
  { apply strictly_sorted_unique.
    - apply distinct_dates_strictly_sorted; [apply sortByDateDesc_sorted|].
      rewrite sortByDateDesc_perm, <- Hperm. exact Hdistinct.
    - apply distinct_dates_strictly_sorted; [apply sortByDateDesc_sorted|].
      rewrite sortByDateDesc_perm. exact Hdistinct.
    - rewrite !sortByDateDesc_perm. symmetry. exact Hperm. }
  rewrite Hsame. reflexivity.
Qed.

Lemma trend_ignores_order_witness :
  calculateOccupancyTrend
    [mkOccEntry 19002 (7 # 10) 0 0; mkOccEntry 19000 (5 # 10) 0 0;
     mkOccEntry 19001 (6 # 10) 0 0]
  = calculateOccupancyTrend
      [mkOccEntry 19000 (5 # 10) 0 0; mkOccEntry 19001 (6 # 10) 0 0;
       mkOccEntry 19002 (7 # 10) 0 0].
Proof.
  apply trend_ignores_order.
  - apply (bool_decide_unpack _). vm_compute. exact I.
  - symmetry.
    apply Permutation_cons_append with (x := mkOccEntry 19002 (7 # 10) 0 0)
                                       (l := [mkOccEntry 19000 (5 # 10) 0 0;
                                              mkOccEntry 19001 (6 # 10) 0 0]).
Defined.

(** ** Strategy classifier, further *)

(** X6: the classifier answers hold, increase or decrease, or else the
    strategy of the configuration, and the latter only for a property
    without statistics. *)
Theorem strategy_range :
  forall now propertyUrl currentOccupancy e,
    getPropertyStrategy now propertyUrl currentOccupancy e = "hold"
    \/ getPropertyStrategy now propertyUrl currentOccupancy e = "increase"
    \/ getPropertyStrategy now propertyUrl currentOccupancy e = "decrease"
    \/ (propertyStats e !! propertyUrl = None
        /\ getPropertyStrategy now propertyUrl currentOccupancy e = cfg_strategy (config e)).
Proof.
  intros now url occ e. unfold getPropertyStrategy.
  destruct (propertyStats e !! url) as [stats|];
    repeat match goal with |- context [if ?b then _ else _] => destruct b end; auto.
Qed.

Lemma addSevenDayTotals_totals now a m :
  (cumulativeIncrease (addSevenDayTotals now a m) == cumulativeIncrease m)%Q
  /\ (sevenDayIncrease m <= sevenDayIncrease (addSevenDayTotals now a m))%Q.
Proof.
  unfold addSevenDayTotals.
  destruct (sinceSevenDaysAgo now (adj_date a)); [|split; lra].
  destruct (Qgtb (basePricePercentChange a) 0) eqn:Hup.
  - cbn [cumulativeIncrease sevenDayIncrease]. order_facts. split; lra.
  - destruct (Qltb (basePricePercentChange a) 0);
      cbn [cumulativeIncrease sevenDayIncrease]; split; lra.
Qed.

Lemma Qmax_positive a b : Qgtb a 0 || Qgtb b 0 = true -> (0 < Qmax a b)%Q.
Proof.
  intros H. apply orb_true_iff in H as [H | H]; order_facts.
  - eapply Qlt_le_trans; [exact H | apply Q.le_max_l].
  - eapply Qlt_le_trans; [exact H | apply Q.le_max_r].
Qed.

(** Closes a goal on the totals of a momentum from the facts at hand, once
    the fields of the records built by the loop are read. *)
Ltac totals_lra :=
  cbn [cumulativeIncrease sevenDayIncrease momentum0] in *; lra.

(** The loop never takes back what it has added to the two totals that can
    force a hold. *)
Lemma momentumLoop_totals_mono now adjs : forall m,
  (cumulativeIncrease m <= cumulativeIncrease (momentumLoop now adjs m))%Q
  /\ (sevenDayIncrease m <= sevenDayIncrease (momentumLoop now adjs m))%Q.
Proof.
  induction adjs as [|a older IH]; intros m; cbn [momentumLoop]; [split; lra|].
  destruct (addSevenDayTotals_totals now a m) as [Hcum Hseven]. cbv zeta.
  destruct (isIncreaseAdjustment a) eqn:Hinc.
  - unfold isIncreaseAdjustment in Hinc. apply andb_true_iff in Hinc as [_ Hpos].
    apply Qmax_positive in Hpos.
    match goal with |- context [if ?b then _ else _] => destruct b end.
    + split; totals_lra.
    + match goal with |- context [momentumLoop now older ?m2] =>
        destruct (IH m2) as [IHc IHs] end.
      split; totals_lra.
  - destruct (isDecreaseAdjustment a).
    + match goal with |- context [if ?b then _ else _] => destruct b end.
      * split; totals_lra.
      * match goal with |- context [momentumLoop now older ?m2] =>
          destruct (IH m2) as [IHc IHs] end.
        split; totals_lra.
    + split; lra.
Qed.

Lemma sliceLast_keeps_last {A} (l : list A) (a : A) :
  exists front, rev (sliceLast 7 (l ++ [a])) = a :: rev front.
Proof.
  destruct (sliceLast_keeps_tail 7 l [a]) as [front ->]; [simpl; lia|].
  exists front. rewrite rev_app_distr. reflexivity.
Qed.

(** What the last record of the array, the first one the loop reads, brings
    alone to the two totals. *)
Lemma last_record_totals now older a :
  let m := momentumOf now (older ++ [a]) in
  (isIncreaseAdjustment a = true ->
   (Qmax (minPricePercentChange a) (basePricePercentChange a) <= cumulativeIncrease m)%Q)
  /\ (sinceSevenDaysAgo now (adj_date a) = true ->
      (0 < basePricePercentChange a)%Q ->
      (basePricePercentChange a <= sevenDayIncrease m)%Q).
Proof.
  cbv zeta. unfold momentumOf.
  destruct (sliceLast_keeps_last older a) as [front ->].
  cbn [momentumLoop]. cbv zeta.
  destruct (addSevenDayTotals_totals now a momentum0) as [Hcum _].
  split.
  - intros Hinc. rewrite Hinc.
    match goal with |- context [if ?b then _ else _] => destruct b end.
    + totals_lra.
    + match goal with |- context [momentumLoop now (rev front) ?m2] =>
        destruct (momentumLoop_totals_mono now (rev front) m2) as [IHc _] end.
      totals_lra.
  - intros Hrecent Hup.
    assert (Hfirst : (basePricePercentChange a
                      <= sevenDayIncrease (addSevenDayTotals now a momentum0))%Q).
    { unfold addSevenDayTotals. rewrite Hrecent.
      apply Qgtb_gt in Hup. rewrite Hup. totals_lra. }
    destruct (isIncreaseAdjustment a); [|destruct (isDecreaseAdjustment a)];
      try exact Hfirst;
      match goal with |- context [if ?b then _ else _] => destruct b end;
      try (cbn [sevenDayIncrease]; exact Hfirst);
      match goal with |- context [momentumLoop now (rev front) ?m2] =>
        destruct (momentumLoop_totals_mono now (rev front) m2) as [_ IHs] end;
      totals_lra.
Qed.

(** An increase of 3% or more in the last record of the array forces a hold. *)
Lemma recent_increase_hold_core now propertyUrl currentOccupancy e stats older a :
  propertyStats e !! propertyUrl = Some stats ->
  adjustmentHistory stats = (older ++ [a])%list ->
  isIncreaseAdjustment a = true ->
  (3 <= Qmax (minPricePercentChange a) (basePricePercentChange a))%Q ->
  getPropertyStrategy now propertyUrl currentOccupancy e = "hold".
Proof.
  intros Hstats Hhist Hinc Hbig.
  unfold getPropertyStrategy. rewrite Hstats, Hhist.
  destruct (last_record_totals now older a) as [Hcum _]. specialize (Hcum Hinc).
  unfold forceHoldOf.
  assert (Qgeb (cumulativeIncrease (momentumOf now (older ++ [a]))) 3 = true) as ->
    by (apply Qgeb_ge; lra).
  reflexivity.
Qed.

(** X7: when the last record of the [adjustmentHistory] array of a
    property, the first one the momentum loop reads, is an increase whose
    larger change (min or base) reaches 3%, the classifier answers hold
    whatever the occupancy and whatever the dates of the records. *)
Theorem last_record_increase_forces_hold :
  forall now propertyUrl currentOccupancy e stats older a,
    propertyStats e !! propertyUrl = Some stats ->
    adjustmentHistory stats = (older ++ [a])%list ->
    isIncreaseAdjustment a = true ->
    (3 <= Qmax (minPricePercentChange a) (basePricePercentChange a))%Q ->
    getPropertyStrategy now propertyUrl currentOccupancy e = "hold".
Proof.
  intros now url occ e stats older a Hstats Hhist Hinc Hbig.
  eapply recent_increase_hold_core; eassumption.
Qed.

(** X8: when the last record of the [adjustmentHistory] array of a
    property, the first one the momentum loop reads, is dated within the
    last seven days and raised the base price by 4% or more, the classifier
    answers hold whatever the occupancy. *)
Theorem last_record_base_jump_forces_hold :
  forall now propertyUrl currentOccupancy e stats older a,
    propertyStats e !! propertyUrl = Some stats ->
    adjustmentHistory stats = (older ++ [a])%list ->
    sinceSevenDaysAgo now (adj_date a) = true ->
    (4 <= basePricePercentChange a)%Q ->
    getPropertyStrategy now propertyUrl currentOccupancy e = "hold".
Proof.
  intros now url occ e stats older a Hstats Hhist Hrecent Hbig.
  unfold getPropertyStrategy. rewrite Hstats, Hhist.
  destruct (last_record_totals now older a) as [_ Hseven].
  specialize (Hseven Hrecent ltac:(lra)).
  unfold forceHoldOf.
  assert (Qgeb (sevenDayIncrease (momentumOf now (older ++ [a]))) 4 = true) as ->
    by (apply Qgeb_ge; lra).
  rewrite orb_true_r. reflexivity.
Qed.


Lemma last_record_increase_forces_hold_witness :
  getPropertyStrategy sampleNow "listing-1" steadyOccupancy raisedEngine = "hold".
Proof.
  apply (last_record_increase_forces_hold sampleNow "listing-1" steadyOccupancy raisedEngine
           raisedStats [] (mkAdjustment 19001 "increase" None 4 4)).
  - reflexivity.
  - reflexivity.
  - reflexivity.
  - vm_compute. discriminate.
Defined.

Lemma last_record_base_jump_forces_hold_witness :
  getPropertyStrategy sampleNow "listing-1" fullOccupancy raisedEngine = "hold".
Proof.
  apply (last_record_base_jump_forces_hold sampleNow "listing-1" fullOccupancy raisedEngine
           raisedStats [] (mkAdjustment 19001 "increase" None 4 4)).
  - reflexivity.
  - reflexivity.
  - reflexivity.
  - vm_compute. discriminate.
Defined.


(** ** Adjustment calculator, further *)

(** X10: a call touches nothing but its own property: the configuration
    and the statistics of every other property are as before, and of its
    own property the price history, the occupancy history and the date of
    the last update are kept, while the adjustment history gains exactly
    one record, dated today and labelled with the strategy chosen. *)
Theorem call_frame :
  forall now propertyUrl currentPrice currentOccupancy priceType e,
    let e' := snd (calculateAdjustedPrice now propertyUrl currentPrice currentOccupancy
                     priceType e) in
    config e' = config e
    /\ (forall other, other <> propertyUrl ->
          propertyStats e' !! other = propertyStats e !! other)
    /\ (forall stats, propertyStats e !! propertyUrl = Some stats ->
          exists stats' p,
            propertyStats e' !! propertyUrl = Some stats'
            /\ priceHistory stats' = priceHistory stats
            /\ occupancyHistory stats' = occupancyHistory stats
            /\ lastUpdate stats' = lastUpdate stats
            /\ adjustmentHistory stats'
               = (adjustmentHistory stats
                  ++ [adjustmentOf now
                        (getPropertyStrategy now propertyUrl currentOccupancy e)
                        priceType p])%list).
Proof.
  intros now url cp occ pt e e'. split; [|split].
  - subst e'. unfold calculateAdjustedPrice.
    destruct (plannedAdjustment now url occ pt e) as [[p osc]|]; [|reflexivity].
    cbv zeta. match goal with |- context [match ?m !! url with _ => _ end] =>
      destruct (m !! url) end; reflexivity.
  - intros other Hne. subst e'. unfold calculateAdjustedPrice.
    destruct (plannedAdjustment now url occ pt e) as [[p osc]|]; [|reflexivity].
    cbv zeta. unfold pushAdjustment, storeOscillation.
    match goal with |- context [match ?m !! url with _ => _ end] =>
      destruct (m !! url) end; cbn [snd propertyStats];
      destruct osc; rewrite ?lookup_alter_ne by congruence; reflexivity.
  - intros stats Hstats.
    destruct (plannedAdjustment_known now url occ pt e stats Hstats) as (p & osc & Hplan).
    destruct (calculateAdjustedPrice_known now url cp occ pt e stats p osc Hstats Hplan)
      as (recorded & Hrec & _ & Hcall).
    subst e'. rewrite Hcall. cbn [snd propertyStats].
    eexists _, p. split; [exact Hrec|]. repeat split.
Qed.

Lemma map_url_updateFirst propertyUrl priceType pair changes0 :
  ch_url <$> updateFirst (sameUrl propertyUrl) (setPrice priceType pair) changes0
  = ch_url <$> changes0.
Proof.
  induction changes0 as [|c cs IH]; [reflexivity|]. cbn [updateFirst].
  destruct (sameUrl propertyUrl c).
  - rewrite !fmap_cons. f_equal. unfold setPrice.
    destruct (String.eqb priceType "min"); [reflexivity|].
    destruct (String.eqb priceType "base"); reflexivity.
  - rewrite !fmap_cons, IH. reflexivity.
Qed.

Lemma find_none_url propertyUrl changes0 :
  find (sameUrl propertyUrl) changes0 = None -> propertyUrl ∉ ch_url <$> changes0.
Proof.
  induction changes0 as [|c cs IH]; intros Hfind; [apply not_elem_of_nil|].
  cbn [find] in Hfind. unfold sameUrl in Hfind at 1.
  destruct (String.eqb_spec (ch_url c) propertyUrl) as [|Hne]; [discriminate|].
  rewrite fmap_cons. apply not_elem_of_cons. split; [congruence | auto].
Qed.

Lemma recordChange_urls now propertyUrl currentOccupancy priceType pair changes0 :
  ch_url <$> recordChange now propertyUrl currentOccupancy priceType pair changes0
  = ((ch_url <$> changes0)
     ++ (if bool_decide (propertyUrl ∈ ch_url <$> changes0) then [] else [propertyUrl]))%list.
Proof.
  unfold recordChange. fold (sameUrl propertyUrl).
  destruct (find (sameUrl propertyUrl) changes0) as [c|] eqn:Hfind.
  - rewrite map_url_updateFirst.
    apply find_some in Hfind as [Hin Hurl].
    rewrite bool_decide_eq_true_2; [rewrite app_nil_r; reflexivity|].
    apply String.eqb_eq in Hurl. rewrite <- Hurl.
    apply list_elem_of_fmap. exists c. split; [reflexivity|].
    apply list_elem_of_In. exact Hin.
  - rewrite bool_decide_eq_false_2 by (apply find_none_url; exact Hfind).
    rewrite fmap_app. f_equal. cbn. f_equal. unfold setPrice.
    destruct (String.eqb priceType "min"); [reflexivity|].
    destruct (String.eqb priceType "base"); reflexivity.
Qed.

(** X11: the run's buffer holds one entry per property: a call adds the
    property of the call at the end when it had no entry, adds nothing
    otherwise, and so never makes two entries for one property. *)
Theorem one_change_per_property :
  forall now propertyUrl currentPrice currentOccupancy priceType e,
    let e' := snd (calculateAdjustedPrice now propertyUrl currentPrice currentOccupancy
                     priceType e) in
    (exists added,
       ch_url <$> currentChanges e' = ((ch_url <$> currentChanges e) ++ added)%list
       /\ (added = [] \/ (added = [propertyUrl]
                          /\ propertyUrl ∉ ch_url <$> currentChanges e)))
    /\ (NoDup (ch_url <$> currentChanges e) -> NoDup (ch_url <$> currentChanges e')).
Proof.
  intros now url cp occ pt e e'.
  assert (Hadded : exists added,
             ch_url <$> currentChanges e' = ((ch_url <$> currentChanges e) ++ added)%list
             /\ (added = [] \/ (added = [url] /\ url ∉ ch_url <$> currentChanges e))).
  { subst e'. unfold calculateAdjustedPrice.
    destruct (plannedAdjustment now url occ pt e) as [[p osc]|];
      [|exists []; rewrite app_nil_r; auto].
    cbv zeta. match goal with |- context [match ?m !! url with _ => _ end] =>
      destruct (m !! url) end; cbn [snd currentChanges];
      [|exists []; rewrite app_nil_r; auto].
    rewrite recordChange_urls. eexists. split; [reflexivity|].
    destruct (bool_decide (url ∈ ch_url <$> currentChanges e)) eqn:Hin; [auto|].
    right. split; [reflexivity|]. apply bool_decide_eq_false in Hin. exact Hin. }
  split; [exact Hadded|].
  intros Hnodup. destruct Hadded as (added & -> & [-> | [-> Hfresh]]).
  - rewrite app_nil_r. exact Hnodup.
  - apply NoDup_app. repeat split; [exact Hnodup | | apply NoDup_singleton].
    intros x Hx Hx'. apply list_elem_of_singleton in Hx'. subst x. contradiction.
Qed.

Lemma one_change_per_property_witness :
  NoDup (ch_url <$> currentChanges
           (snd (calculateAdjustedPrice sampleNow "listing-1" 150 steadyOccupancy "min"
                   pendingEngine))).
Proof.
  apply (proj2 (one_change_per_property sampleNow "listing-1" 150 steadyOccupancy "min"
                  pendingEngine)).
  apply (bool_decide_unpack _). vm_compute. exact I.
Defined.

Lemma call_frame_witness :
  exists stats' p,
    propertyStats
      (snd (calculateAdjustedPrice sampleNow "listing-1" 150 steadyOccupancy "min"
              sampleEngine)) !! "listing-1" = Some stats'
    /\ priceHistory stats' = priceHistory sampleStats
    /\ occupancyHistory stats' = occupancyHistory sampleStats
    /\ lastUpdate stats' = lastUpdate sampleStats
    /\ adjustmentHistory stats'
       = (adjustmentHistory sampleStats
          ++ [adjustmentOf sampleNow
                (getPropertyStrategy sampleNow "listing-1" steadyOccupancy sampleEngine)
                "min" p])%list.
Proof.
  apply (proj2 (proj2 (call_frame sampleNow "listing-1" 150 steadyOccupancy "min"
                         sampleEngine)) sampleStats).
  reflexivity.
Defined.

Lemma sameUrl_setPrice propertyUrl priceType pair change :
  sameUrl propertyUrl (setPrice priceType pair change) = sameUrl propertyUrl change.
Proof.
  unfold sameUrl, setPrice.
  destruct (String.eqb priceType "min"); [reflexivity|].
  destruct (String.eqb priceType "base"); reflexivity.
Qed.

(** The entry of the property after the upsert: the entry found, or a fresh
    one, with the price of [priceType] assigned. *)
Lemma recordChange_find now propertyUrl currentOccupancy priceType pair changes0 :
  find (sameUrl propertyUrl)
    (recordChange now propertyUrl currentOccupancy priceType pair changes0)
  = Some (setPrice priceType pair
            (default (mkChange propertyUrl (todayOf now) (Some currentOccupancy)
                        None None None)
               (find (sameUrl propertyUrl) changes0))).
Proof.
  unfold recordChange. fold (sameUrl propertyUrl).
  destruct (find (sameUrl propertyUrl) changes0) as [c|] eqn:Hfind; cbn [default].
  - apply find_updateFirst; [exact Hfind|].
    rewrite sameUrl_setPrice. apply find_some in Hfind as [_ Hurl]. exact Hurl.
  - apply find_app_last; [exact Hfind|].
    rewrite sameUrl_setPrice. unfold sameUrl. cbn. apply String.eqb_refl.
Qed.

(** X12: the min-price call and the base-price call that the script makes
    for a property with statistics end up in one entry of the run's buffer,
    holding the before and after values of both prices. *)
Theorem min_then_base_one_entry :
  forall now later propertyUrl occupancy minPrice basePrice e stats,
    propertyStats e !! propertyUrl = Some stats ->
    let afterMin := calculateAdjustedPrice now propertyUrl minPrice occupancy "min" e in
    let afterBase :=
      calculateAdjustedPrice later propertyUrl basePrice occupancy "base" (snd afterMin) in
    exists change pMin pBase oscMin oscBase,
      plannedAdjustment now propertyUrl occupancy "min" e = Some (pMin, oscMin)
      /\ plannedAdjustment later propertyUrl occupancy "base" (snd afterMin)
         = Some (pBase, oscBase)
      /\ find (sameUrl propertyUrl) (currentChanges (snd afterBase)) = Some change
      /\ ch_minPrice change = Some (mkPricePair minPrice (applyPercentage minPrice pMin))
      /\ ch_basePrice change
         = Some (mkPricePair basePrice (applyPercentage basePrice pBase)).
Proof.
  intros now later url occ minP baseP e stats Hstats afterMin afterBase.
  destruct (plannedAdjustment_known now url occ "min" e stats Hstats)
    as (pMin & oscMin & Hplan1).
  destruct (calculateAdjustedPrice_known now url minP occ "min" e stats pMin oscMin
              Hstats Hplan1) as (recorded1 & Hrec1 & _ & Hcall1).
  assert (Hstats1 : propertyStats (snd afterMin) !! url
                    = Some (statsAfter (adjustmentOf now
                                          (getPropertyStrategy now url occ e) "min" pMin)
                              oscMin stats))
    by (subst afterMin; rewrite Hcall1; exact Hrec1).
  destruct (plannedAdjustment_known later url occ "base" (snd afterMin) _ Hstats1)
    as (pBase & oscBase & Hplan2).
  destruct (calculateAdjustedPrice_known later url baseP occ "base" (snd afterMin) _
              pBase oscBase Hstats1 Hplan2) as (recorded2 & _ & _ & Hcall2).
  eexists _, pMin, pBase, oscMin, oscBase.
  split; [exact Hplan1|]. split; [exact Hplan2|].
  subst afterBase. rewrite Hcall2. cbn [snd currentChanges].
  split; [apply recordChange_find|].
  subst afterMin. rewrite Hcall1. cbn [snd currentChanges].
  rewrite recordChange_find. cbn [default]. split; reflexivity.
Qed.

Lemma min_then_base_one_entry_witness :
  exists change pMin pBase oscMin oscBase,
    plannedAdjustment sampleNow "listing-1" steadyOccupancy "min" sampleEngine
    = Some (pMin, oscMin)
    /\ plannedAdjustment (sampleNow + 60000) "listing-1" steadyOccupancy "base"
         (snd (calculateAdjustedPrice sampleNow "listing-1" 100 steadyOccupancy "min"
                 sampleEngine))
       = Some (pBase, oscBase)
    /\ find (sameUrl "listing-1")
         (currentChanges
            (snd (calculateAdjustedPrice (sampleNow + 60000) "listing-1" 120
                    steadyOccupancy "base"
                    (snd (calculateAdjustedPrice sampleNow "listing-1" 100
                            steadyOccupancy "min" sampleEngine)))))
       = Some change
    /\ ch_minPrice change = Some (mkPricePair 100 (applyPercentage 100 pMin))
    /\ ch_basePrice change = Some (mkPricePair 120 (applyPercentage 120 pBase)).
Proof.
  apply (min_then_base_one_entry sampleNow (sampleNow + 60000) "listing-1"
           steadyOccupancy 100 120
           sampleEngine sampleStats).
  reflexivity.
Defined.

(** The price returned once a percentage is settled: the floor applied to
    the rounded price, against a price history that the call has not
    touched. *)
Lemma calculateAdjustedPrice_price now propertyUrl currentPrice currentOccupancy priceType
    e p oscillated :
  plannedAdjustment now propertyUrl currentOccupancy priceType e = Some (p, oscillated) ->
  exists recorded,
    fst (calculateAdjustedPrice now propertyUrl currentPrice currentOccupancy priceType e)
    = floorMinPrice propertyUrl priceType (applyPercentage currentPrice p) recorded
    /\ (forall stats', recorded !! propertyUrl = Some stats' ->
          exists stats,
            propertyStats e !! propertyUrl = Some stats
            /\ priceHistory stats' = priceHistory stats).
Proof.
  intros Hplan.
  destruct (propertyStats e !! propertyUrl) as [stats|] eqn:Hstats.
  - destruct (calculateAdjustedPrice_known now propertyUrl currentPrice currentOccupancy
                priceType e stats p oscillated Hstats Hplan)
      as (recorded & Hrec & _ & Hcall).
    exists recorded. rewrite Hcall. split; [reflexivity|].
    intros stats' Hstats'. rewrite Hrec in Hstats'. injection Hstats' as <-.
    exists stats. split; reflexivity.
  - exists (propertyStats e). split.
    + unfold calculateAdjustedPrice. rewrite Hplan. cbv zeta. unfold storeOscillation.
      destruct oscillated; rewrite ?alter_id' by exact Hstats; rewrite Hstats; reflexivity.
    + intros stats' Hstats'. congruence.
Qed.

Lemma Math_round_mono a b : (a <= b)%Q -> (Math_round a <= Math_round b)%Q.
Proof.
  intros H. unfold Math_round. rewrite <- Zle_Qle. apply Qfloor_resp_le. lra.
Qed.

Lemma floorMinPrice_le_self propertyUrl priceType adjustedPrice
    (m : gmap string PropertyStats) :
  (floorMinPrice propertyUrl priceType adjustedPrice m <= adjustedPrice)%Q.
Proof.
  unfold floorMinPrice.
  destruct (String.eqb priceType "min"); [|lra].
  destruct (m !! propertyUrl) as [s|]; [|lra].
  destruct (priceHistory s) as [|recent rest]; [lra|].
  destruct (Qgtb adjustedPrice (minAllowedPrice recent)) eqn:H; order_facts; lra.
Qed.

Lemma trailingOf_nonneg now propertyUrl priceType e :
  (0 <= trailingOf now propertyUrl priceType e)%Q.
Proof.
  unfold trailingOf. destruct (propertyStats e !! propertyUrl); [|lra].
  apply trailingIncrease_nonneg.
Qed.

(** X13: with a decrease percentage that is not negative, no call applies
    more than 5%, on any property and whatever the configuration asks for;
    so the price returned for a price that is not negative is at most the
    price raised by 5% and rounded. *)
Theorem single_call_at_most_five_percent :
  forall now propertyUrl currentPrice currentOccupancy priceType e p oscillated,
    (0 <= decrease_percentage (config e))%Q ->
    plannedAdjustment now propertyUrl currentOccupancy priceType e = Some (p, oscillated) ->
    (p <= 5)%Q
    /\ ((0 <= currentPrice)%Q ->
        (fst (calculateAdjustedPrice now propertyUrl currentPrice currentOccupancy
                priceType e)
         <= Math_round (currentPrice * (105 # 100)))%Q).
Proof.
  intros now url cp occ pt e p osc Hdec Hplan.
  assert (Hp : (p <= 5)%Q).
  { destruct (Qlt_le_dec 0 p) as [Hpos | Hneg]; [|lra].
    pose proof (trailingOf_nonneg now url pt e) as Hs.
    unfold plannedAdjustment in Hplan. unfold trailingOf in Hs.
    pose proof (adjustmentPercentageOf_fits _ _ _ _ _ _ _ _ _ _ _ Hdec Hplan Hpos). lra. }
  split; [exact Hp|]. intros Hprice.
  destruct (calculateAdjustedPrice_price now url cp occ pt e p osc Hplan)
    as (recorded & -> & _).
  eapply Qle_trans; [apply floorMinPrice_le_self|].
  unfold applyPercentage. apply Math_round_mono.
  assert (cp * p <= cp * 5)%Q by nra.
  percent_lra.
Qed.

Lemma single_call_at_most_five_percent_witness :
  ((30 # 10) <= 5)%Q
  /\ ((0 <= 150)%Q ->
      (fst (calculateAdjustedPrice sampleNow "listing-9" 150 fullOccupancy "base" coldEngine)
       <= Math_round (150 * (105 # 100)))%Q).
Proof.
  apply (single_call_at_most_five_percent sampleNow "listing-9" 150 fullOccupancy "base"
           coldEngine (30 # 10) false).
  - vm_compute. discriminate.
  - vm_compute. reflexivity.
Defined.

(** Splits on every test that the goal branches on. *)
Ltac split_tests :=
  repeat match goal with
  | |- context [if ?b then _ else _] => destruct b eqn:?
  end.

(** With magnitudes within bounds, no branch of the [switch] settles on
    less than -100%. *)
Lemma adjustmentPercentageOf_at_least strategy c thresholds o7 o30 w dayOfWeek s last p osc :
  (0 <= increase_percentage c)%Q ->
  (0 <= decrease_percentage c)%Q ->
  (decrease_percentage c * (15 # 10) <= 100)%Q ->
  (0 <= hold_oscillationPercentage c)%Q ->
  (hold_oscillationPercentage c <= 100)%Q ->
  adjustmentPercentageOf strategy c thresholds o7 o30 w dayOfWeek s last = Some (p, osc) ->
  (-100 <= p)%Q.
Proof.
  intros Hinc Hdec Hdec' Hosc Hosc'.
  pose proof (Q.le_max_l 0 (5 - s)) as Hmax.
  unfold adjustmentPercentageOf, capIncrease, proposedIncrease, oscillation.
  destruct (String.eqb strategy "increase").
  { split_tests; intros [= <- _]; lra. }
  destruct (String.eqb strategy "decrease").
  { split_tests; intros [= <- _]; lra. }
  destruct (String.eqb strategy "hold"); [|discriminate].
  cbv zeta.
  destruct last as [l|]; [destruct (Qgtb l 0)|];
    change (Qgtb (-1) 0) with false; change (Qgtb 1 0) with true; cbv iota;
    split_tests; intros [= <- _]; lra.
Qed.

Lemma Math_round_nonneg a : (0 <= a)%Q -> (0 <= Math_round a)%Q.
Proof.
  intros H. change 0%Q with (Math_round 0). apply Math_round_mono. exact H.
Qed.

(** X14: whenever the strategy is one of the three, the price returned is
    a whole number; and it is not negative when the current price and the
    recorded base price are not, for magnitudes within bounds (increase and
    decrease percentages at least 0, 1.5 times the decrease percentage at
    most 100, oscillation percentage between 0 and 100). *)
Theorem price_is_whole_and_not_negative :
  forall now propertyUrl currentPrice currentOccupancy priceType e p oscillated,
    plannedAdjustment now propertyUrl currentOccupancy priceType e = Some (p, oscillated) ->
    let price :=
      fst (calculateAdjustedPrice now propertyUrl currentPrice currentOccupancy
             priceType e) in
    (exists units : Z, price = inject_Z units)
    /\ ((0 <= currentPrice)%Q ->
        (0 <= increase_percentage (config e))%Q ->
        (0 <= decrease_percentage (config e))%Q ->
        (decrease_percentage (config e) * (15 # 10) <= 100)%Q ->
        (0 <= hold_oscillationPercentage (config e))%Q ->
        (hold_oscillationPercentage (config e) <= 100)%Q ->
        (forall stats recent rest,
           propertyStats e !! propertyUrl = Some stats ->
           priceHistory stats = recent :: rest ->
           (0 <= after (pe_basePrice recent))%Q) ->
        (0 <= price)%Q).
Proof.
  intros now url cp occ pt e p osc Hplan price.
  destruct (calculateAdjustedPrice_price now url cp occ pt e p osc Hplan)
    as (recorded & Hprice & Hkept).
  subst price. rewrite Hprice. unfold floorMinPrice. split.
  - destruct (String.eqb pt "min"); [|eexists; reflexivity].
    destruct (recorded !! url) as [s|]; [|eexists; reflexivity].
    destruct (priceHistory s) as [|recent rest]; [eexists; reflexivity|].
    destruct (Qgtb _ _); eexists; reflexivity.
  - intros Hcp Hinc Hdec Hdec' Hosc Hosc' Hbase.
    assert (Hp : (-100 <= p)%Q).
    { unfold plannedAdjustment in Hplan.
      eapply adjustmentPercentageOf_at_least; [| | | | |exact Hplan]; assumption. }
    assert (Hadjusted : (0 <= applyPercentage cp p)%Q).
    { unfold applyPercentage. apply Math_round_nonneg.
      assert (0 <= cp * (100 + p))%Q by nra. percent_lra. }
    destruct (String.eqb pt "min"); [|exact Hadjusted].
    destruct (recorded !! url) as [s|] eqn:Hs; [|exact Hadjusted].
    destruct (priceHistory s) as [|recent rest] eqn:Hprices; [exact Hadjusted|].
    destruct (Qgtb _ _); [|exact Hadjusted].
    destruct (Hkept s eq_refl) as (stats & Hstats & Hsame).
    unfold minAllowedPrice. apply Math_round_nonneg.
    assert (0 <= after (pe_basePrice recent))%Q
      by (eapply Hbase; [exact Hstats | rewrite <- Hsame; exact Hprices]).
    lra.
Qed.

Lemma price_is_whole_and_not_negative_witness :
  (exists units : Z,
     fst (calculateAdjustedPrice sampleNow "listing-1" 150 steadyOccupancy "min"
            sampleEngine) = inject_Z units)
  /\ (0 <= fst (calculateAdjustedPrice sampleNow "listing-1" 150 steadyOccupancy "min"
                  sampleEngine))%Q.
Proof.
  pose proof (price_is_whole_and_not_negative sampleNow "listing-1" 150 steadyOccupancy
                "min" sampleEngine 1 true) as H.
  cbv zeta in H. destruct H as [Hwhole Hpositive].
  - vm_compute. reflexivity.
  - split; [exact Hwhole|]. apply Hpositive; try (vm_compute; discriminate).
    intros stats recent rest Hstats Hprices.
    assert (Hsample : propertyStats sampleEngine !! "listing-1" = Some sampleStats)
      by reflexivity.
    rewrite Hsample in Hstats. injection Hstats as <-.
    injection Hprices as <- _. vm_compute. discriminate.
Defined.

(** ** History ingestor, further *)

(** X15: the entries that carry an error message count for nothing: the
    statistics are those of the ledger with these entries taken out. *)
Theorem error_entries_ignored :
  forall logs stats,
    analyzeHistoricalData logs stats
    = analyzeHistoricalData (List.filter (fun entry => negb (hasError entry)) logs) stats.
Proof.
  induction logs as [|entry logs IH]; intros stats; [reflexivity|].
  cbn [analyzeHistoricalData fold_left List.filter].
  fold (analyzeHistoricalData logs (analyzeEntry stats entry)).
  destruct (hasError entry) eqn:Herr; cbn [negb].
  - unfold analyzeEntry at 1. rewrite Herr. apply IH.
  - cbn [fold_left].
    fold (analyzeHistoricalData
            (List.filter (fun entry0 => negb (hasError entry0)) logs)
            (analyzeEntry stats entry)).
    apply IH.
Qed.

Lemma analyzeHistoricalData_snoc logs entry stats :
  analyzeHistoricalData (logs ++ [entry]) stats
  = analyzeEntry (analyzeHistoricalData logs stats) entry.
Proof. unfold analyzeHistoricalData. rewrite fold_left_app. reflexivity. Qed.

Lemma dateMs_lt a b : (dateMs a <? dateMs b) = (a <? b).
Proof.
  unfold dateMs, dayMs.
  destruct (Z.ltb_spec a b); [apply Z.ltb_lt | apply Z.ltb_ge]; lia.
Qed.

Lemma analyzeEntry_taken stats entry :
  hasError entry = false ->
  exists s',
    analyzeEntry stats entry = <[ch_url entry := s']> stats
    /\ st_url s' = st_url (default (emptyStats (ch_url entry)) (stats !! ch_url entry))
    /\ lastUpdate s'
       = match lastUpdate (default (emptyStats (ch_url entry)) (stats !! ch_url entry)) with
         | Some d => if d <? ch_date entry then Some (ch_date entry) else Some d
         | None => Some (ch_date entry)
         end.
Proof.
  intros Herr. unfold analyzeEntry. rewrite Herr. cbv zeta.
  destruct (ch_minPrice entry) as [minP|]; destruct (ch_basePrice entry) as [baseP|];
    (eexists; split; [reflexivity|]; split; [reflexivity|]; cbn [lastUpdate];
     destruct (lastUpdate _) as [d|]; [rewrite dateMs_lt|]; reflexivity).
Qed.

(** The invariant of the replay, entry after entry. *)
Lemma replay_invariant logs :
  forall url, replayedUpTo logs url (analyzeHistoricalData logs ∅ !! url).
Proof.
  induction logs as [|entry logs IH] using rev_ind; intros url.
  - cbn. rewrite lookup_empty. intros entry Hin. apply elem_of_nil in Hin. contradiction.
  - rewrite analyzeHistoricalData_snoc. specialize (IH url).
    set (m := analyzeHistoricalData logs ∅) in *.
    destruct (hasError entry) eqn:Herr.
    + (* the entry is skipped *)
      assert (Hskip : analyzeEntry m entry = m) by (unfold analyzeEntry; rewrite Herr; reflexivity).
      assert (Hno : replayedFor url entry = false) by (unfold replayedFor; rewrite Herr; reflexivity).
      rewrite Hskip. unfold replayedUpTo in *.
      destruct (m !! url) as [s|].
      * destruct IH as (Hurl & latest & Hlast & Hmax & entry0 & Hin & Hrep & Hdate).
        split; [exact Hurl|]. exists latest. split; [exact Hlast|]. split.
        -- intros x Hx Hrepx. apply elem_of_app in Hx as [Hx | Hx]; [auto|].
           apply list_elem_of_singleton in Hx. subst x. congruence.
        -- exists entry0. split; [apply elem_of_app; auto | auto].
      * intros x Hx. apply elem_of_app in Hx as [Hx | Hx]; [auto|].
        apply list_elem_of_singleton in Hx. subst x. exact Hno.
    + destruct (analyzeEntry_taken m entry Herr) as (s' & -> & Hurl' & Hlast').
      destruct (String.eqb_spec (ch_url entry) url) as [Heq | Hne].
      * (* the entry belongs to [url] *)
        assert (Hrep : replayedFor url entry = true)
          by (unfold replayedFor; rewrite Herr, Heq, String.eqb_refl; reflexivity).
        rewrite Heq in *. rewrite lookup_insert_eq. unfold replayedUpTo in *.
        destruct (m !! url) as [s|]; simpl in Hurl', Hlast'.
        -- destruct IH as (Hurl & latest & Hlast & Hmax & entry0 & Hin & Hrep0 & Hdate).
           split; [congruence|]. rewrite Hlast in Hlast'.
           destruct (Z.ltb_spec latest (ch_date entry)) as [Hlt | Hge].
           ++ exists (ch_date entry). split; [exact Hlast'|]. split.
              ** intros x Hx Hrepx. apply elem_of_app in Hx as [Hx | Hx].
                 --- specialize (Hmax x Hx Hrepx). lia.
                 --- apply list_elem_of_singleton in Hx. subst x. lia.
              ** exists entry. split; [apply elem_of_app; right; left | auto].
           ++ exists latest. split; [exact Hlast'|]. split.
              ** intros x Hx Hrepx. apply elem_of_app in Hx as [Hx | Hx]; [auto|].
                 apply list_elem_of_singleton in Hx. subst x. lia.
              ** exists entry0. split; [apply elem_of_app; auto | auto].
        -- split; [exact Hurl'|]. exists (ch_date entry). split; [exact Hlast'|]. split.
           ++ intros x Hx Hrepx. apply elem_of_app in Hx as [Hx | Hx].
              ** rewrite (IH x Hx) in Hrepx. discriminate.
              ** apply list_elem_of_singleton in Hx. subst x. lia.
           ++ exists entry. split; [apply elem_of_app; right; left | auto].
      * (* the entry belongs to another property *)
        assert (Hno : replayedFor url entry = false).
        { unfold replayedFor. apply String.eqb_neq in Hne. rewrite Hne.
          apply andb_false_r. }
        rewrite lookup_insert_ne by exact Hne. unfold replayedUpTo in *.
        destruct (m !! url) as [s|].
        -- destruct IH as (Hurl & latest & Hlast & Hmax & entry0 & Hin & Hrep & Hdate).
           split; [exact Hurl|]. exists latest. split; [exact Hlast|]. split.
           ++ intros x Hx Hrepx. apply elem_of_app in Hx as [Hx | Hx]; [auto|].
              apply list_elem_of_singleton in Hx. subst x. congruence.
           ++ exists entry0. split; [apply elem_of_app; auto | auto].
        -- intros x Hx. apply elem_of_app in Hx as [Hx | Hx]; [auto|].
           apply list_elem_of_singleton in Hx. subst x. exact Hno.
Qed.

(** X16: after the replay of a ledger, a property has statistics exactly
    when some entry without error names it, and these statistics are filed
    under its own url. *)
Theorem replay_keys :
  forall logs url,
    (is_Some (analyzeHistoricalData logs ∅ !! url)
     <-> exists entry, entry ∈ logs /\ hasError entry = false /\ ch_url entry = url)
    /\ (forall s, analyzeHistoricalData logs ∅ !! url = Some s -> st_url s = url).
Proof.
  intros logs url. pose proof (replay_invariant logs url) as Hinv.
  unfold replayedUpTo in Hinv.
  destruct (analyzeHistoricalData logs ∅ !! url) as [s|].
  - destruct Hinv as (Hurl & latest & _ & _ & entry & Hin & Hrep & _).
    unfold replayedFor in Hrep. apply andb_true_iff in Hrep as [Herr Heq].
    apply negb_true_iff in Herr. apply String.eqb_eq in Heq.
    split; [|intros s0 [= <-]; exact Hurl].
    split; [intros _; eauto | intros _; eauto].
  - split; [|discriminate].
    split; [intros [s Hs]; discriminate|].
    intros (entry & Hin & Herr & Heq). specialize (Hinv entry Hin).
    unfold replayedFor in Hinv. rewrite Herr, Heq, String.eqb_refl in Hinv. discriminate.
Qed.

(** X17: the last update of a property is the latest date among the
    entries without error that name it, wherever that entry stands in the
    ledger. *)
Theorem replay_last_update_is_latest :
  forall logs url s,
    analyzeHistoricalData logs ∅ !! url = Some s ->
    exists latest,
      lastUpdate s = Some latest
      /\ (forall entry, entry ∈ logs -> hasError entry = false -> ch_url entry = url ->
            ch_date entry <= latest)
      /\ (exists entry,
            entry ∈ logs /\ hasError entry = false /\ ch_url entry = url
            /\ ch_date entry = latest).
Proof.
  intros logs url s Hs. pose proof (replay_invariant logs url) as Hinv.
  rewrite Hs in Hinv. destruct Hinv as (_ & latest & Hlast & Hmax & entry & Hin & Hrep & Hd).
  exists latest. split; [exact Hlast|]. split.
  - intros x Hx Herr Heq. apply Hmax; [exact Hx|].
    unfold replayedFor. rewrite Herr, Heq, String.eqb_refl. reflexivity.
  - exists entry. unfold replayedFor in Hrep. apply andb_true_iff in Hrep as [Herr Heq].
    apply negb_true_iff in Herr. apply String.eqb_eq in Heq. auto.
Qed.

Lemma replay_keys_witness :
  is_Some (analyzeHistoricalData sampleLedger ∅ !! "listing-1")
  /\ ~ is_Some (analyzeHistoricalData sampleLedger ∅ !! "listing-2").
Proof.
  split.
  - apply (proj1 (replay_keys sampleLedger "listing-1")).
    exists (sampleChange 19005). split; [left | split; reflexivity].
  - intros Hsome.
    apply (proj1 (replay_keys sampleLedger "listing-2")) in Hsome
      as (entry & Hin & Herr & Hurl).
    unfold sampleLedger in Hin.
    repeat (apply elem_of_cons in Hin as [-> | Hin];
            [first [discriminate Hurl | discriminate Herr]|]).
    apply elem_of_nil in Hin. exact Hin.
Defined.

Lemma replay_last_update_is_latest_witness :
  exists s,
    analyzeHistoricalData sampleLedger ∅ !! "listing-1" = Some s
    /\ lastUpdate s = Some 19010.
Proof.
  destruct (analyzeHistoricalData sampleLedger ∅ !! "listing-1") as [s|] eqn:Hs;
    [|vm_compute in Hs; discriminate].
  exists s. split; [reflexivity|].
  destruct (replay_last_update_is_latest sampleLedger "listing-1" s Hs)
    as (latest & Hlast & Hmax & entry & Hin & Herr & _ & Hdate).
  rewrite Hlast. f_equal.
  assert (19010 <= latest)
    by (apply (Hmax (sampleChange 19010)); [right; right; left | reflexivity..]).
  unfold sampleLedger in Hin.
  apply elem_of_cons in Hin as [-> | Hin]; [cbn in Hdate; lia|].
  apply elem_of_cons in Hin as [-> | Hin]; [discriminate Herr|].
  apply elem_of_cons in Hin as [-> | Hin]; [cbn in Hdate; lia|].
  apply elem_of_nil in Hin. contradiction.
Defined.

Lemma analyzeEntry_occupancyHistory url stats entry :
  occupancyHistoryOf url (analyzeEntry stats entry)
  = (occupancyHistoryOf url stats
     ++ match occupancyEntryOf url entry with Some r => [r] | None => [] end)%list.
Proof.
  unfold occupancyHistoryOf, analyzeEntry, occupancyEntryOf, replayedFor.
  destruct (hasError entry); cbn [negb andb]; [rewrite app_nil_r; reflexivity|].
  destruct (String.eqb_spec (ch_url entry) url) as [-> | Hne].
  - destruct (ch_occupancy entry) as [o|], (ch_minPrice entry) as [minP|],
      (ch_basePrice entry) as [baseP|];
      rewrite lookup_insert_eq; cbn [occupancyHistory]; rewrite ?app_nil_r; reflexivity.
  - destruct (ch_occupancy entry) as [o|], (ch_minPrice entry) as [minP|],
      (ch_basePrice entry) as [baseP|];
      rewrite lookup_insert_ne by exact Hne; rewrite app_nil_r; reflexivity.
Qed.

Lemma analyzeHistoricalData_occupancyHistory url logs : forall stats,
  occupancyHistoryOf url (analyzeHistoricalData logs stats)
  = (occupancyHistoryOf url stats ++ omap (occupancyEntryOf url) logs)%list.
Proof.
  induction logs as [|entry logs IH]; intros stats; cbn [analyzeHistoricalData fold_left].
  - rewrite app_nil_r. reflexivity.
  - fold (analyzeHistoricalData logs (analyzeEntry stats entry)).
    rewrite IH, analyzeEntry_occupancyHistory, <- app_assoc. f_equal.
    cbn [omap list_omap]. destruct (occupancyEntryOf url entry); reflexivity.
Qed.

(** X18: the replay lists the occupancy readings of a property in the
    order of the ledger, one for each entry without error that names the
    property and carries an occupancy; nothing is sorted or dropped. *)
Theorem replay_keeps_ledger_order :
  forall url logs,
    occupancyHistoryOf url (analyzeHistoricalData logs ∅)
    = omap (occupancyEntryOf url) logs.
Proof.
  intros url logs. rewrite analyzeHistoricalData_occupancyHistory.
  unfold occupancyHistoryOf. rewrite lookup_empty. reflexivity.
Qed.

(** The range of the normalizer on the inputs whose percentage does not
    exceed 100. *)
Lemma parseOccupancyRate_in_range v :
  withinPercentRange v -> (0 <= parseOccupancyRate v)%Q /\ (parseOccupancyRate v <= 1)%Q.
Proof.
  destruct v as [| |n|s|]; simpl; intros Hv; try (split; lra).
  - destruct (Qgtb n 1) eqn:Hn; order_facts; split; percent_lra.
  - destruct (String.eqb s "N/A" || String.eqb s ""); [split; lra|].
    destruct (regexNumericToken s) as [tok|] eqn:Htok; [|split; lra].
    pose proof (parseFloatToken_nonneg _ _ Htok). split; percent_lra.
Qed.

(** X19: when no occupancy written in the ledger exceeds 100%, every
    reading that the replay stores lies between 0 and 1. *)
Theorem replayed_readings_in_unit_interval :
  forall logs url,
    (forall entry o, entry ∈ logs -> ch_occupancy entry = Some o ->
       withinPercentRange (occ_7_day o)
       /\ withinPercentRange (occ_30_day o)
       /\ withinPercentRange (occ_60_day o)) ->
    forall reading,
      reading ∈ occupancyHistoryOf url (analyzeHistoricalData logs ∅) ->
      unitReading reading.
Proof.
  intros logs url Hrange reading Hin.
  assert (Hall : occupancyHistoryOf url (analyzeHistoricalData logs ∅)
                 = omap (occupancyEntryOf url) logs).
  { rewrite analyzeHistoricalData_occupancyHistory.
    unfold occupancyHistoryOf. rewrite lookup_empty. reflexivity. }
  rewrite Hall in Hin. apply list_elem_of_omap in Hin as (entry & Hentry & Hread).
  unfold occupancyEntryOf in Hread.
  destruct (replayedFor url entry); [|discriminate].
  destruct (ch_occupancy entry) as [o|] eqn:Hocc; [|discriminate].
  injection Hread as <-.
  destruct (Hrange entry o Hentry Hocc) as (H7 & H30 & H60).
  unfold unitReading. cbn [sevenDay thirtyDay sixtyDay].
  repeat split; apply parseOccupancyRate_in_range; assumption.
Qed.

Lemma replayed_readings_in_unit_interval_witness :
  unitReading
    (mkOccEntry 19005 (parseOccupancyRate (JsString "60%"))
       (parseOccupancyRate (JsString "60%")) (parseOccupancyRate (JsString "60%"))).
Proof.
  apply (replayed_readings_in_unit_interval sampleLedger "listing-1").
  - intros entry o Hin Hocc. unfold sampleLedger in Hin.
    repeat (apply elem_of_cons in Hin as [-> | Hin];
            [try discriminate Hocc; injection Hocc as <-;
             repeat split; vm_compute; discriminate|]).
    apply elem_of_nil in Hin. contradiction.
  - assert (Hreadings :
              occupancyHistoryOf "listing-1" (analyzeHistoricalData sampleLedger ∅)
              = [mkOccEntry 19005 (parseOccupancyRate (JsString "60%"))
                   (parseOccupancyRate (JsString "60%"))
                   (parseOccupancyRate (JsString "60%"));
                 mkOccEntry 19010 (parseOccupancyRate (JsString "60%"))
                   (parseOccupancyRate (JsString "60%"))
                   (parseOccupancyRate (JsString "60%"))])
      by reflexivity.
    rewrite Hreadings. left.
Defined.

(** ** Ledger writers and reader, further *)

(** What a successful [saveChanges] does. *)
Lemma saveChanges_success today e fs path old :
  logFile (config e) = Some path ->
  path <> "" ->
  currentChanges e <> [] ->
  keptBySaveChanges path fs = Some old ->
  path ∉ unwritable fs ->
  saveChanges today e fs
  = (mkEngine (config e) (propertyStats e) [],
     mkFs (<[path := JsonText (LedgerObject
                                  (mkRun (Some today) (Some (currentChanges e ++ old)%list)))]>
             (files fs))
          (unwritable fs)).
Proof.
  intros Hpath Hne Hpending Hkept Hok. unfold saveChanges, keptBySaveChanges in *.
  rewrite Hpath. apply String.eqb_neq in Hne. rewrite Hne.
  destruct (currentChanges e) as [|c cs] eqn:Hcur; [congruence|]. cbn [length Nat.eqb].
  destruct (files fs !! path) as [[[run|[|run runs]|]|]|]; try discriminate;
    injection Hkept as <-; cbn [freshRun changes default];
    rewrite writeFile_ok by exact Hok; reflexivity.
Qed.

(** X20: what [saveChanges] wrote is what the next run reads: over a
    ledger of the single-object shape (or a missing or unreadable file) the
    next [initialize] replays the changes of the run followed by all the
    old ones, and the run's buffer is empty after the save. *)
Theorem save_then_initialize :
  forall today e fs path old,
    logFile (config e) = Some path ->
    path <> "" ->
    currentChanges e <> [] ->
    changesOnDisk path fs = Some old ->
    path ∉ unwritable fs ->
    let saved := saveChanges today e fs in
    loadLogs (config e) fs = old
    /\ currentChanges (fst saved) = []
    /\ propertyStats (fst saved) = propertyStats e
    /\ initialize (config e) (snd saved)
       = mkEngine (config e) (analyzeHistoricalData (currentChanges e ++ old) ∅) [].
Proof.
  intros today e fs path old Hpath Hne Hpending Hdisk Hok saved.
  assert (Hkept : keptBySaveChanges path fs = Some old).
  { unfold keptBySaveChanges, changesOnDisk in *.
    destruct (files fs !! path) as [[[run|runs|]|]|]; try discriminate; assumption. }
  subst saved. rewrite (saveChanges_success today e fs path old) by assumption.
  cbn [fst snd currentChanges propertyStats]. split; [|split; [|split]]; try reflexivity.
  - unfold loadLogs, changesOnDisk in *. rewrite Hpath.
    destruct (files fs !! path) as [[[run|runs|]|]|]; try discriminate; congruence.
  - unfold initialize, loadLogs. rewrite Hpath. cbn [files].
    rewrite lookup_insert_eq. reflexivity.
Qed.

Lemma save_then_initialize_witness :
  initialize sampleConfig (snd (saveChanges "2022-01-20" pendingEngine emptyDisk))
  = mkEngine sampleConfig (analyzeHistoricalData ([sampleChange 19010] ++ []) ∅) [].
Proof.
  apply (save_then_initialize "2022-01-20" pendingEngine emptyDisk
           "pricelabs_changes.json" []).
  - reflexivity.
  - discriminate.
  - discriminate.
  - reflexivity.
  - cbn. apply not_elem_of_empty.
Defined.

(** X21: over a ledger of the older shape, an array of runs, [saveChanges]
    keeps the changes of the first run only: the file becomes a single
    object holding the changes of the run and those of the first run, and
    what the next run reads has lost the other runs. *)
Theorem saveChanges_keeps_first_run_only :
  forall today e fs path run rest,
    logFile (config e) = Some path ->
    path <> "" ->
    currentChanges e <> [] ->
    files fs !! path = Some (JsonText (LedgerArray (run :: rest))) ->
    path ∉ unwritable fs ->
    loadLogs (config e) fs
    = (default [] (changes run)
       ++ flat_map (fun r => default [] (changes r)) rest)%list
    /\ files (snd (saveChanges today e fs)) !! path
       = Some (JsonText (LedgerObject
                           (mkRun (Some today)
                              (Some (currentChanges e ++ default [] (changes run))%list))))
    /\ loadLogs (config e) (snd (saveChanges today e fs))
       = (currentChanges e ++ default [] (changes run))%list.
Proof.
  intros today e fs path run rest Hpath Hne Hpending Hfile Hok.
  assert (Hkept : keptBySaveChanges path fs = Some (default [] (changes run)))
    by (unfold keptBySaveChanges; rewrite Hfile; reflexivity).
  rewrite (saveChanges_success today e fs path _ Hpath Hne Hpending Hkept Hok).
  cbn [snd files]. split; [|split].
  - unfold loadLogs. rewrite Hpath, Hfile. reflexivity.
  - apply lookup_insert_eq.
  - unfold loadLogs. rewrite Hpath. cbn [files]. rewrite lookup_insert_eq. reflexivity.
Qed.

Lemma saveChanges_keeps_first_run_only_witness :
  loadLogs sampleConfig twoRunDisk = [sampleChange 19004; sampleChange 19003]
  /\ loadLogs sampleConfig (snd (saveChanges "2022-01-20" pendingEngine twoRunDisk))
     = [sampleChange 19010; sampleChange 19004].
Proof.
  destruct (saveChanges_keeps_first_run_only "2022-01-20" pendingEngine twoRunDisk
              "pricelabs_changes.json"
              (mkRun (Some "2022-01-12") (Some [sampleChange 19004]))
              [mkRun (Some "2022-01-11") (Some [sampleChange 19003])])
    as (Hbefore & _ & Hafter).
  - reflexivity.
  - discriminate.
  - discriminate.
  - reflexivity.
  - cbn. apply not_elem_of_empty.
  - split; [exact Hbefore | exact Hafter].
Defined.

Lemma saveChanges_nothing_pending today e fs :
  currentChanges e = [] -> saveChanges today e fs = (e, fs).
Proof.
  intros Hnone. unfold saveChanges. rewrite Hnone.
  destruct (logFile (config e)) as [path|]; [|reflexivity].
  destruct (String.eqb path ""); reflexivity.
Qed.

(** A save either leaves everything as it was, whatever the date, or
    empties the buffer of the run. *)
Lemma saveChanges_outcome today e fs :
  (forall date, saveChanges date e fs = (e, fs))
  \/ exists path content,
       logFile (config e) = Some path
       /\ saveChanges today e fs
          = (mkEngine (config e) (propertyStats e) [],
             mkFs (<[path := content]> (files fs)) (unwritable fs)).
Proof.
  destruct (logFile (config e)) as [path|] eqn:Hpath;
    [|left; intros date; unfold saveChanges; rewrite Hpath; reflexivity].
  destruct (decide (path ∈ unwritable fs)) as [Hfail | Hok];
    [left; intros date; apply (saveChanges_failure date e fs path Hpath Hfail)|].
  destruct (String.eqb path "") eqn:Hempty;
    [left; intros date; unfold saveChanges; rewrite Hpath, Hempty; reflexivity|].
  destruct (length (currentChanges e) =? 0)%nat eqn:Hnone;
    [left; intros date; unfold saveChanges; rewrite Hpath, Hempty, Hnone; reflexivity|].
  destruct (keptBySaveChanges path fs) as [old|] eqn:Hkept.
  - right. exists path. eexists. split; [reflexivity|].
    apply (saveChanges_success today e fs path old); try assumption.
    + apply String.eqb_neq. exact Hempty.
    + intros Hnil. rewrite Hnil in Hnone. discriminate.
  - left. intros date. unfold saveChanges, keptBySaveChanges in *.
    rewrite Hpath, Hempty, Hnone.
    destruct (files fs !! path) as [[[run|[|run runs]|]|]|]; try discriminate; reflexivity.
Qed.

(** X22: saving twice is saving once: a second [saveChanges], whenever it
    comes, leaves the engine and the files as the first one left them, so
    the changes of a run are never written twice by the strategy module. *)
Theorem saveChanges_idempotent :
  forall today later e fs,
    saveChanges later (fst (saveChanges today e fs)) (snd (saveChanges today e fs))
    = saveChanges today e fs.
Proof.
  intros today later e fs.
  destruct (saveChanges_outcome today e fs) as [Hsame | (path & content & _ & Hsaved)].
  - rewrite (Hsame today). cbn [fst snd]. apply Hsame.
  - rewrite Hsaved. cbn [fst snd]. apply saveChanges_nothing_pending. reflexivity.
Qed.

(** X23: over a ledger of the older shape, an array of runs,
    [saveChangesToLog] writes the runs back as it read them: when the file
    can be written, the files are left exactly as they were, and the new
    changes are in no file at all. *)
Theorem saveChangesToLog_array_drops_new_changes :
  forall today logPath newChanges fs runs,
    files fs !! logPath = Some (JsonText (LedgerArray runs)) ->
    logPath ∉ unwritable fs ->
    saveChangesToLog today logPath newChanges fs = fs.
Proof.
  intros today logPath newChanges fs runs Hfile Hok.
  unfold saveChangesToLog. rewrite Hfile, writeFile_ok by exact Hok.
  rewrite insert_id by exact Hfile. destruct fs; reflexivity.
Qed.

Lemma saveChangesToLog_array_drops_new_changes_witness :
  saveChangesToLog "2022-01-20" "pricelabs_changes.json" [sampleChange 19010] twoRunDisk
  = twoRunDisk.
Proof.
  apply (saveChangesToLog_array_drops_new_changes "2022-01-20" "pricelabs_changes.json"
           [sampleChange 19010] twoRunDisk
           [mkRun (Some "2022-01-12") (Some [sampleChange 19004]);
            mkRun (Some "2022-01-11") (Some [sampleChange 19003])]).
  - reflexivity.
  - cbn. apply not_elem_of_empty.
Defined.

(** The files after [saveChangesToLog]: as before, or with the ledger
    written, or with the backup written. *)
Lemma saveChangesToLog_outcome today logPath newChanges fs :
  saveChangesToLog today logPath newChanges fs = fs
  \/ (exists content,
        saveChangesToLog today logPath newChanges fs
        = mkFs (<[logPath := content]> (files fs)) (unwritable fs))
  \/ (exists content,
        saveChangesToLog today logPath newChanges fs
        = mkFs (<[(logPath ++ ".backup-" ++ today)%string := content]> (files fs))
            (unwritable fs)).
Proof.
  unfold saveChangesToLog, writeFile.
  destruct (files fs !! logPath) as [[[run| |]|]|];
    destruct (decide (logPath ∈ unwritable fs));
    destruct (decide ((logPath ++ ".backup-" ++ today)%string ∈ unwritable fs)); eauto.
Qed.

(** X24: the writers touch the ledger and its dated backup and nothing
    else: [saveChangesToLog] leaves every other file as it was, and when
    the ledger and the backup both refuse to be written it leaves all the
    files as they were; [saveChanges] leaves every file but the ledger as
    it was, and the statistics and the configuration of the engine too. *)
Theorem writers_frame :
  forall today logPath newChanges e fs,
    (forall other,
       other <> logPath -> other <> (logPath ++ ".backup-" ++ today)%string ->
       files (saveChangesToLog today logPath newChanges fs) !! other = files fs !! other)
    /\ (logPath ∈ unwritable fs ->
        (logPath ++ ".backup-" ++ today)%string ∈ unwritable fs ->
        saveChangesToLog today logPath newChanges fs = fs)
    /\ (forall other,
          logFile (config e) <> Some other ->
          files (snd (saveChanges today e fs)) !! other = files fs !! other)
    /\ propertyStats (fst (saveChanges today e fs)) = propertyStats e
    /\ config (fst (saveChanges today e fs)) = config e.
Proof.
  intros today logPath newChanges e fs. split; [|split; [|split; [|split]]].
  - intros other Hlog Hbackup.
    destruct (saveChangesToLog_outcome today logPath newChanges fs)
      as [-> | [[content ->] | [content ->]]]; [reflexivity| |];
      cbn [files]; apply lookup_insert_ne; congruence.
  - intros Hfail Hfail'. unfold saveChangesToLog.
    assert (Hmain : forall content, writeFile logPath content fs = None)
      by (intros content; apply writeFile_fails; exact Hfail).
    destruct (files fs !! logPath) as [[[run| |]|]|];
      rewrite ?Hmain, writeFile_fails by exact Hfail'; reflexivity.
  - intros other Hne.
    destruct (saveChanges_outcome today e fs) as [Hsame | (path & content & Hpath & ->)];
      [rewrite Hsame; reflexivity|].
    cbn [snd files]. apply lookup_insert_ne. congruence.
  - destruct (saveChanges_outcome today e fs) as [Hsame | (path & content & _ & ->)];
      [rewrite Hsame|]; reflexivity.
  - destruct (saveChanges_outcome today e fs) as [Hsame | (path & content & _ & ->)];
      [rewrite Hsame|]; reflexivity.
Qed.

Lemma writers_frame_witness :
  files (saveChangesToLog "2022-01-20" "pricelabs_changes.json" [sampleChange 19010]
           lockedDisk) !! "config.json"
  = files lockedDisk !! "config.json".
Proof.
  apply (proj1 (writers_frame "2022-01-20" "pricelabs_changes.json" [sampleChange 19010]
                  pendingEngine lockedDisk)); discriminate.
Defined.

(** ** The end of a run *)

(** X25: a first run, without a ledger and with nothing recorded by the
    strategy module, leaves a ledger that holds the changes of the script;
    the engine of the next run then has, for every property, the price
    history that these changes give, in their order. *)
Theorem saveLogs_bootstrap :
  forall today strategyToday hasUiOnlyChanges uiChanges e fs path,
    logFile (config e) = Some path ->
    path <> "" ->
    currentChanges e = [] ->
    files fs !! path = None ->
    path ∉ unwritable fs ->
    (length uiChanges <= maxHistoryEntries)%nat ->
    let saved := saveLogs today strategyToday hasUiOnlyChanges uiChanges e fs in
    fst saved = e
    /\ files (snd saved) !! path
       = Some (JsonText (LedgerObject (mkRun (Some today) (Some uiChanges))))
    /\ (forall url,
          priceHistoryOf url (propertyStats (initialize (config e) (snd saved)))
          = omap (priceEntryOf url) uiChanges).
Proof.
  intros today strategyToday hasUi ui e fs path Hpath _ Hnone Hfile Hok Hlen saved.
  assert (Hsaved : saved = (e, saveChangesToLog today path ui fs)).
  { subst saved. unfold saveLogs.
    rewrite (saveChanges_nothing_pending strategyToday e fs Hnone), Hpath, Hfile.
    rewrite bool_decide_eq_false_2 by (intros [x Hx]; discriminate).
    rewrite orb_true_r. reflexivity. }
  assert (Hwritten : files (saveChangesToLog today path ui fs) !! path
                     = Some (JsonText (LedgerObject (mkRun (Some today) (Some ui))))).
  { destruct (saveChangesToLog_trims today path ui fs []) as (kept & Hkept & -> & _).
    - unfold changesOnDisk. rewrite Hfile. reflexivity.
    - exact Hok.
    - rewrite Hkept, app_nil_r, take_ge by exact Hlen. reflexivity. }
  rewrite Hsaved. cbn [fst snd]. split; [reflexivity|]. split; [exact Hwritten|].
  intros url. unfold initialize, loadLogs. rewrite Hpath, Hwritten.
  cbn [propertyStats changes default].
  rewrite analyzeHistoricalData_priceHistory.
  unfold priceHistoryOf at 1. rewrite lookup_empty. reflexivity.
Qed.

Lemma saveLogs_bootstrap_witness :
  files (snd (saveLogs "2022-01-20" "2022-01-20" false
                [uiChange "listing-9" 19011 fullOccupancy 100 103 125 129]
                coldEngine emptyDisk)) !! "pricelabs_changes.json"
  = Some (JsonText (LedgerObject
                      (mkRun (Some "2022-01-20")
                         (Some [uiChange "listing-9" 19011 fullOccupancy 100 103 125 129])))).
Proof.
  apply (saveLogs_bootstrap "2022-01-20" "2022-01-20" false
           [uiChange "listing-9" 19011 fullOccupancy 100 103 125 129]
           coldEngine emptyDisk "pricelabs_changes.json").
  - reflexivity.
  - discriminate.
  - reflexivity.
  - reflexivity.
  - cbn. apply not_elem_of_empty.
  - cbn. unfold maxHistoryEntries. lia.
Defined.

(** X26: when the strategy module has changes to save, over a ledger of the
    single-object shape (or a missing or unreadable file) that can be
    written, the ledger ends up with the changes of the strategy module
    followed by the old ones; and when some price stayed as it was, the
    changes of the script are put in front of them, the whole cut to 1000
    entries, so that the run is recorded from both sides. *)
Theorem saveLogs_writes_both_buffers :
  forall today strategyToday hasUiOnlyChanges uiChanges e fs path old,
    logFile (config e) = Some path ->
    path <> "" ->
    currentChanges e <> [] ->
    changesOnDisk path fs = Some old ->
    path ∉ unwritable fs ->
    files (snd (saveLogs today strategyToday hasUiOnlyChanges uiChanges e fs)) !! path
    = if hasUiOnlyChanges && negb (length uiChanges =? 0)%nat
      then Some (JsonText (LedgerObject
                   (mkRun (Some today)
                      (Some (take maxHistoryEntries
                               (uiChanges ++ currentChanges e ++ old))))))
      else Some (JsonText (LedgerObject
                   (mkRun (Some strategyToday) (Some (currentChanges e ++ old)%list)))).
Proof.
  intros today strategyToday hasUi ui e fs path old Hpath Hne Hpending Hdisk Hok.
  assert (Hkept : keptBySaveChanges path fs = Some old).
  { unfold keptBySaveChanges, changesOnDisk in *.
    destruct (files fs !! path) as [[[run|runs|]|]|]; try discriminate; assumption. }
  unfold saveLogs.
  rewrite (saveChanges_success strategyToday e fs path old Hpath Hne Hpending Hkept Hok),
    Hpath.
  cbn [files]. rewrite lookup_insert_eq.
  rewrite bool_decide_eq_true_2 by eauto. cbn [negb]. rewrite orb_false_r.
  destruct (hasUi && negb (length ui =? 0)%nat); cbn [snd files];
    [|apply lookup_insert_eq].
  match goal with |- files (saveChangesToLog _ _ _ ?disk) !! _ = _ =>
    destruct (saveChangesToLog_trims today path ui disk (currentChanges e ++ old))
      as (kept & Hfile & -> & _) end.
  - unfold changesOnDisk. cbn [files]. rewrite lookup_insert_eq. reflexivity.
  - exact Hok.
  - exact Hfile.
Qed.

Lemma saveLogs_writes_both_buffers_witness :
  files (snd (saveLogs "2022-01-20" "2022-01-21" true
                [uiChange "listing-1" 19010 steadyOccupancy 100 101 120 121]
                pendingEngine emptyDisk)) !! "pricelabs_changes.json"
  = Some (JsonText (LedgerObject
                      (mkRun (Some "2022-01-20")
                         (Some (take maxHistoryEntries
                                  ([uiChange "listing-1" 19010 steadyOccupancy 100 101 120 121]
                                   ++ currentChanges pendingEngine ++ [])))))).
Proof.
  apply (saveLogs_writes_both_buffers "2022-01-20" "2022-01-21" true
           [uiChange "listing-1" 19010 steadyOccupancy 100 101 120 121]
           pendingEngine emptyDisk "pricelabs_changes.json" []).
  - reflexivity.
  - discriminate.
  - discriminate.
  - reflexivity.
  - cbn. apply not_elem_of_empty.
Defined.

(** ** The occupancy model of the simulation *)

(** X27: whatever the property, the prices, the season and the draw, the
    occupancy of the next day lies between 0 and 1; and from an occupancy
    that is not negative it is at most 95% of it plus the 30 points that a
    day of bookings can bring. *)
Theorem calculateNewOccupancy_range :
  forall property currentOccupancy oldPrice newPrice seasonalPosition dayOfWeek random,
    let next :=
      calculateNewOccupancy property currentOccupancy oldPrice newPrice seasonalPosition
        dayOfWeek random in
    (0 <= next)%Q /\ (next <= 1)%Q
    /\ ((0 <= currentOccupancy)%Q ->
        (next <= currentOccupancy * (95 # 100) + (30 # 100))%Q).
Proof.
  intros property cur oldP newP season day random next. subst next.
  unfold calculateNewOccupancy. cbv zeta.
  match goal with |- context [Qmin ?a (30 # 100)] => set (probability := a) end.
  pose proof (Q.le_min_r probability (30 # 100)) as Hcap.
  set (rate := Qmin probability (30 # 100)) in *.
  set (raw := (cur + (rate - cur * (5 # 100)))%Q).
  pose proof (Q.le_min_l 1 raw) as Hone.
  pose proof (Q.le_min_r 1 raw) as Hraw.
  split; [apply Q.le_max_l|]. split.
  - apply Q.max_lub; lra.
  - intros Hcur. apply Q.max_lub; [lra|]. subst raw. lra.
Qed.

Lemma calculateNewOccupancy_range_witness :
  (calculateNewOccupancy (mkSimulated (8 # 10) (15 # 100) (25 # 100) (5 # 100) (12 # 100))
     (70 # 100) 250 255 (1 # 2) 6 (3 # 4)
   <= (70 # 100) * (95 # 100) + (30 # 100))%Q.
Proof.
  apply (calculateNewOccupancy_range
           (mkSimulated (8 # 10) (15 # 100) (25 # 100) (5 # 100) (12 # 100))
           (70 # 100) 250 255 (1 # 2) 6 (3 # 4)).
  vm_compute. discriminate.
Defined.

(** ** From the page to the strategy *)

Lemma unreadable_cell_is_zero text :
  regexNumericToken text = None ->
  parseOccupancyRate (percentToDecimal text) = 0%Q.
Proof.
  intros Hnone. unfold percentToDecimal. rewrite Hnone.
  destruct (String.eqb text "" || String.eqb text "N/A"); reflexivity.
Qed.

Lemma unreadable_cells_are_zero texts :
  (forall text, text ∈ texts -> regexNumericToken text = None) ->
  parseOccupancyRate (occ_7_day (occupancyData texts)) = 0%Q
  /\ parseOccupancyRate (occ_30_day (occupancyData texts)) = 0%Q
  /\ parseOccupancyRate (occ_60_day (occupancyData texts)) = 0%Q.
Proof.
  intros Hnone. unfold occupancyData.
  destruct texts as [|t0 rest]; [repeat split; reflexivity|].
  cbv zeta. cbn [occ_7_day occ_30_day occ_60_day].
  assert (Hcell : forall i,
             parseOccupancyRate
               match (t0 :: rest) !! i with
               | Some text => percentToDecimal text
               | None => JsNull
               end = 0%Q).
  { intros i. destruct ((t0 :: rest) !! i) as [text|] eqn:Hi; [|reflexivity].
    apply unreadable_cell_is_zero, Hnone. eapply list_elem_of_lookup_2. exact Hi. }
  repeat split; apply Hcell.
Qed.

(** X28: when no occupancy can be read off the page (no cell, or cells
    without a number, such as N/A), every rate counts as 0: with thresholds
    above 0 the classifier answers decrease, unless the recent adjustments
    of the property force a hold; for a property without statistics it
    always answers decrease. *)
Theorem unreadable_occupancy_means_decrease :
  forall now propertyUrl texts e,
    (forall text, text ∈ texts -> regexNumericToken text = None) ->
    (0 < high (thresholdsOf (config e)))%Q ->
    (0 < medium (thresholdsOf (config e)))%Q ->
    (0 < low (thresholdsOf (config e)))%Q ->
    (getPropertyStrategy now propertyUrl (occupancyData texts) e = "decrease"
     \/ (is_Some (propertyStats e !! propertyUrl)
         /\ getPropertyStrategy now propertyUrl (occupancyData texts) e = "hold")).
Proof.
  intros now url texts e Hnone Hhigh Hmedium Hlow.
  destruct (unreadable_cells_are_zero texts Hnone) as (H7 & H30 & H60).
  unfold getPropertyStrategy. rewrite H7, H30, H60.
  assert (Hw : (weightedOccupancy (weightsOf (config e)) 0 0 0 == 0)%Q)
    by (unfold weightedOccupancy; ring).
  assert (Qgeb 0 (high (thresholdsOf (config e))) = false) as ->
    by (apply Qgeb_lt; exact Hhigh).
  assert (Qltb (weightedOccupancy (weightsOf (config e)) 0 0 0)
            (low (thresholdsOf (config e))) = true) as ->
    by (apply Qltb_lt; rewrite Hw; exact Hlow).
  assert (Qltb 0 (medium (thresholdsOf (config e))) = true) as ->
    by (apply Qltb_lt; exact Hmedium).
  cbn [andb].
  destruct (propertyStats e !! url) as [stats|]; [|left; reflexivity].
  destruct (forceHoldOf _); [right; split; [eauto | reflexivity] | left; reflexivity].
Qed.

Lemma unreadable_occupancy_means_decrease_witness :
  getPropertyStrategy sampleNow "listing-9" (occupancyData ["N/A"; "N/A"; "N/A"])
    coldEngine = "decrease"
  \/ (is_Some (propertyStats coldEngine !! "listing-9")
      /\ getPropertyStrategy sampleNow "listing-9" (occupancyData ["N/A"; "N/A"; "N/A"])
           coldEngine = "hold").
Proof.
  apply (unreadable_occupancy_means_decrease sampleNow "listing-9" ["N/A"; "N/A"; "N/A"]
           coldEngine).
  - intros text Hin.
    repeat (apply elem_of_cons in Hin as [-> | Hin]; [reflexivity|]).
    apply elem_of_nil in Hin. contradiction.
  - vm_compute. reflexivity.
  - vm_compute. reflexivity.
  - vm_compute. reflexivity.
Defined.
